(** * The deployment-progress state machine of [compass/db/models.py]

    A shallow embedding of the state records ([StateMixin], [HostState],
    [ClusterHostState], [ClusterState]), of the entities that own them
    ([Host], [ClusterHost], [Cluster]) and of the configuration setters,
    followed by the properties of [update()] and of the setters.

    Conventions.
    - Objects are rows keyed by primary key.  A state row shares the key
      of its owner ([host_state.id] is a foreign key to [host.id], and
      likewise for the two other state tables).
    - Rows are taken as loaded from the database: every column holds a
      value (column defaults applied).
    - [percentage] is a binary64 float, as in Python.
    - A method is a computation in the monad [M]: it threads the store
      and either returns or raises; the store reached when an exception
      is raised keeps the attribute writes done before it.
    - The second part of the file adds [ClusterHost.update],
      [Cluster.update], [Cluster.initialize], [ClusterHost.roles], the
      inherited properties of [Adapter] and setters of [SwitchMachine]
      and [Machine].  Validation and serialisation are not modelled. *)

From Stdlib Require Import ZArith Ascii String List Bool Floats.
From stdpp Require Import gmap strings list fin_maps pretty.

Set Warnings "-register-all".
Local Open Scope Z_scope.
Local Open Scope string_scope.

(** ** Column values *)

(** [Enum('UNINITIALIZED', 'INITIALIZED', 'INSTALLING', 'SUCCESSFUL', 'ERROR')] *)
Inductive State := UNINITIALIZED | INITIALIZED | INSTALLING | SUCCESSFUL | ERROR.

(** [Enum('INFO', 'WARNING', 'ERROR')] *)
Module Severity.
Inductive t := INFO | WARNING | ERROR.
End Severity.

Definition str_of_state (st : State) : string :=
  match st with
  | UNINITIALIZED => "UNINITIALIZED"
  | INITIALIZED => "INITIALIZED"
  | INSTALLING => "INSTALLING"
  | SUCCESSFUL => "SUCCESSFUL"
  | ERROR => "ERROR"
  end.

Definition str_of_severity (sv : Severity.t) : string :=
  match sv with
  | Severity.INFO => "INFO"
  | Severity.WARNING => "WARNING"
  | Severity.ERROR => "ERROR"
  end.

(** ** Object references and Python values *)

(** The three state classes.  The argument is the primary key. *)
Inductive StateRef :=
  | HostStateRef (id : Z)
  | ClusterHostStateRef (id : Z)
  | ClusterStateRef (id : Z).

(** The three entity classes that own a state object. *)
Inductive EntityRef :=
  | HostRef (id : Z)
  | ClusterHostRef (id : Z)
  | ClusterRef (id : Z).

(** What the operands of [==] and [in] are in the modelled methods:
    [None], a string, or a state object. *)
Inductive PyVal :=
  | PyNone
  | PyStr (s : string)
  | PyState (r : StateRef).

#[global] Instance StateRef_eq_dec : EqDecision StateRef.
Proof. solve_decision. Defined.
#[global] Instance State_eq_dec : EqDecision State.
Proof. solve_decision. Defined.
#[global] Instance Severity_eq_dec : EqDecision Severity.t.
Proof. solve_decision. Defined.

(** [a == b].  The mapped classes define no [__eq__]: two objects are
    equal when they are the same object, and an object is never equal to
    a string. *)
Definition py_eq (a b : PyVal) : bool :=
  match a, b with
  | PyNone, PyNone => true
  | PyStr s, PyStr t => String.eqb s t
  | PyState r, PyState r' => bool_decide (r = r')
  | _, _ => false
  end.

(** [x in l] for a list [l]. *)
Definition py_in (x : PyVal) (l : list PyVal) : bool :=
  existsb (py_eq x) l.

(** Truth value of an optional related object: [None] is false, an
    object is true. *)
Definition truthy {A} (o : option A) : bool :=
  match o with Some _ => true | None => false end.

(** ** Configuration blobs *)

(** A JSON value as [JSONEncoded] columns hold it. *)
Inductive json :=
  | JNull
  | JBool (b : bool)
  | JInt (z : Z)
  | JStr (s : string)
  | JList (l : list json)
  | JDict (d : list (string * json)).

(** A Python [dict] with string keys, in insertion order. *)
Abbreviation dict := (list (string * json)).

Fixpoint dict_get (k : string) (d : dict) : option json :=
  match d with
  | [] => None
  | (k', v) :: d' => if String.eqb k k' then Some v else dict_get k d'
  end.

(** [d[k] = v]: replaces the value of an existing key in place, appends
    a new key. *)
Fixpoint dict_set (k : string) (v : json) (d : dict) : dict :=
  match d with
  | [] => [(k, v)]
  | (k', v') :: d' =>
      if String.eqb k k' then (k', v) :: d' else (k', v') :: dict_set k v d'
  end.

(** [d.update(value)] *)
Definition dict_update (d value : dict) : dict :=
  fold_left (fun acc kv => dict_set (fst kv) (snd kv) acc) value d.

(** Modelled from the spec: [util.merge_dict] of [compass/utils/util.py],
    which is not part of the sources at hand.  The spec (4.5, patch):
    "deep-merges the supplied mapping into the existing blob — for each
    key, if both existing and new values are mappings, recursively merge;
    otherwise the new value overwrites". *)
Fixpoint merge_value (lhs rhs : json) {struct rhs} : json :=
  match lhs, rhs with
  | JDict ld, JDict rd =>
      JDict
        ((fix merge_items (items : dict) (acc : dict) {struct items} : dict :=
            match items with
            | [] => acc
            | (k, v) :: items' =>
                merge_items items'
                  (match dict_get k acc with
                   | Some lv => dict_set k (merge_value lv v) acc
                   | None => dict_set k v acc
                   end)
            end) rd ld)
  | _, _ => rhs
  end.

Definition merge_dict (lhs rhs : dict) : dict :=
  match merge_value (JDict lhs) (JDict rhs) with
  | JDict d => d
  | _ => rhs
  end.

(** ** Rows *)

(** The columns of [StateMixin]. *)
Record StateRow := mkStateRow {
  state : State;
  percentage : float;
  message : string;
  severity : Severity.t
}.

Definition set_state (v : State) (r : StateRow) : StateRow :=
  mkStateRow v (percentage r) (message r) (severity r).
Definition set_percentage (v : float) (r : StateRow) : StateRow :=
  mkStateRow (state r) v (message r) (severity r).
Definition set_message (v : string) (r : StateRow) : StateRow :=
  mkStateRow (state r) (percentage r) v (severity r).
Definition set_severity (v : Severity.t) (r : StateRow) : StateRow :=
  mkStateRow (state r) (percentage r) (message r) v.

(** Table [cluster_state]: the [StateMixin] columns and the four
    counters.  [intsalling_hosts] is not a column: it is the instance
    attribute that [ClusterState.update] names; an object has it only
    once something has assigned it. *)
Module cluster_state.
Record row := mk {
  base : StateRow;
  total_hosts : Z;
  installing_hosts : Z;
  completed_hosts : Z;
  failed_hosts : Z;
  intsalling_hosts : option Z
}.
Definition set_base (f : StateRow -> StateRow) (r : row) : row :=
  mk (f (base r)) (total_hosts r) (installing_hosts r) (completed_hosts r)
     (failed_hosts r) (intsalling_hosts r).
Definition set_total_hosts (v : Z) (r : row) : row :=
  mk (base r) v (installing_hosts r) (completed_hosts r) (failed_hosts r)
     (intsalling_hosts r).
Definition set_installing_hosts (v : Z) (r : row) : row :=
  mk (base r) (total_hosts r) v (completed_hosts r) (failed_hosts r)
     (intsalling_hosts r).
Definition set_completed_hosts (v : Z) (r : row) : row :=
  mk (base r) (total_hosts r) (installing_hosts r) v (failed_hosts r)
     (intsalling_hosts r).
Definition set_failed_hosts (v : Z) (r : row) : row :=
  mk (base r) (total_hosts r) (installing_hosts r) (completed_hosts r) v
     (intsalling_hosts r).
Definition set_intsalling_hosts (v : Z) (r : row) : row :=
  mk (base r) (total_hosts r) (installing_hosts r) (completed_hosts r)
     (failed_hosts r) (Some v).
End cluster_state.

(** Table [host].  [os] is the name of the related operating system
    ([None] when there is none); [clusterhosts] is the relationship
    collection, as keys of [clusterhost] rows in collection order. *)
Module host.
Record row := mk {
  os : option string;
  os_name : option string;
  os_config : dict;
  config_validated : bool;
  reinstall_os : bool;
  clusterhosts : list Z
}.
Definition set_os_name (v : option string) (r : row) : row :=
  mk (os r) v (os_config r) (config_validated r) (reinstall_os r)
     (clusterhosts r).
Definition set_os_config (v : dict) (r : row) : row :=
  mk (os r) (os_name r) v (config_validated r) (reinstall_os r)
     (clusterhosts r).
Definition set_config_validated (v : bool) (r : row) : row :=
  mk (os r) (os_name r) (os_config r) v (reinstall_os r) (clusterhosts r).
Definition set_reinstall_os (v : bool) (r : row) : row :=
  mk (os r) (os_name r) (os_config r) (config_validated r) v
     (clusterhosts r).
End host.

(** Table [clusterhost]. *)
Module clusterhost.
Record row := mk {
  cluster_id : Z;
  host_id : Z;
  package_config : dict;
  config_validated : bool
}.
Definition set_package_config (v : dict) (r : row) : row :=
  mk (cluster_id r) (host_id r) v (config_validated r).
Definition set_config_validated (v : bool) (r : row) : row :=
  mk (cluster_id r) (host_id r) (package_config r) v.
End clusterhost.

(** Table [cluster].  [distributed_system] is the key of the related
    distributed system ([None] when the cluster has none). *)
Module cluster.
Record row := mk {
  reinstall_distributed_system : bool;
  distributed_system : option Z;
  os_config : dict;
  package_config : dict;
  config_validated : bool;
  clusterhosts : list Z
}.
Definition set_reinstall_distributed_system (v : bool) (r : row) : row :=
  mk v (distributed_system r) (os_config r) (package_config r)
     (config_validated r) (clusterhosts r).
Definition set_os_config (v : dict) (r : row) : row :=
  mk (reinstall_distributed_system r) (distributed_system r) v
     (package_config r) (config_validated r) (clusterhosts r).
Definition set_package_config (v : dict) (r : row) : row :=
  mk (reinstall_distributed_system r) (distributed_system r) (os_config r)
     v (config_validated r) (clusterhosts r).
Definition set_config_validated (v : bool) (r : row) : row :=
  mk (reinstall_distributed_system r) (distributed_system r) (os_config r)
     (package_config r) v (clusterhosts r).
End cluster.

(** ** The store *)

Record Store := mkStore {
  host_tbl : gmap Z host.row;
  host_state_tbl : gmap Z StateRow;
  clusterhost_tbl : gmap Z clusterhost.row;
  clusterhost_state_tbl : gmap Z StateRow;
  cluster_tbl : gmap Z cluster.row;
  cluster_state_tbl : gmap Z cluster_state.row
}.

Definition with_host_tbl (f : gmap Z host.row -> gmap Z host.row) (s : Store) : Store :=
  mkStore (f (host_tbl s)) (host_state_tbl s) (clusterhost_tbl s)
          (clusterhost_state_tbl s) (cluster_tbl s) (cluster_state_tbl s).
Definition with_host_state_tbl (f : gmap Z StateRow -> gmap Z StateRow) (s : Store) : Store :=
  mkStore (host_tbl s) (f (host_state_tbl s)) (clusterhost_tbl s)
          (clusterhost_state_tbl s) (cluster_tbl s) (cluster_state_tbl s).
Definition with_clusterhost_tbl
    (f : gmap Z clusterhost.row -> gmap Z clusterhost.row) (s : Store) : Store :=
  mkStore (host_tbl s) (host_state_tbl s) (f (clusterhost_tbl s))
          (clusterhost_state_tbl s) (cluster_tbl s) (cluster_state_tbl s).
Definition with_clusterhost_state_tbl
    (f : gmap Z StateRow -> gmap Z StateRow) (s : Store) : Store :=
  mkStore (host_tbl s) (host_state_tbl s) (clusterhost_tbl s)
          (f (clusterhost_state_tbl s)) (cluster_tbl s) (cluster_state_tbl s).
Definition with_cluster_tbl (f : gmap Z cluster.row -> gmap Z cluster.row) (s : Store) : Store :=
  mkStore (host_tbl s) (host_state_tbl s) (clusterhost_tbl s)
          (clusterhost_state_tbl s) (f (cluster_tbl s)) (cluster_state_tbl s).
Definition with_cluster_state_tbl
    (f : gmap Z cluster_state.row -> gmap Z cluster_state.row) (s : Store) : Store :=
  mkStore (host_tbl s) (host_state_tbl s) (clusterhost_tbl s)
          (clusterhost_state_tbl s) (cluster_tbl s) (f (cluster_state_tbl s)).

(** The [StateMixin] columns of a state object. *)
Definition state_row (r : StateRef) (s : Store) : option StateRow :=
  match r with
  | HostStateRef i => host_state_tbl s !! i
  | ClusterHostStateRef i => clusterhost_state_tbl s !! i
  | ClusterStateRef i => cluster_state.base <$> cluster_state_tbl s !! i
  end.

Definition alter_state_row (f : StateRow -> StateRow) (r : StateRef) (s : Store) : Store :=
  match r with
  | HostStateRef i => with_host_state_tbl (alter f i) s
  | ClusterHostStateRef i => with_clusterhost_state_tbl (alter f i) s
  | ClusterStateRef i => with_cluster_state_tbl (alter (cluster_state.set_base f) i) s
  end.

(** ** Computations *)

Inductive Exn :=
  | AttributeError
  | TypeError
  | ValueError
  | ZeroDivisionError
  | OverflowError
  | RuntimeError.

Inductive Outcome (A : Type) :=
  | Returned (a : A)
  | Raised (e : Exn).
Arguments Returned {A} a.
Arguments Raised {A} e.

Definition M (A : Type) : Type := Store -> Outcome A * Store.

Definition ret {A} (a : A) : M A := fun s => (Returned a, s).
Definition raise {A} (e : Exn) : M A := fun s => (Raised e, s).
Definition bind {A B} (m : M A) (k : A -> M B) : M B :=
  fun s =>
    match m s with
    | (Returned a, s') => k a s'
    | (Raised e, s') => (Raised e, s')
    end.
Definition gets {A} (f : Store -> A) : M A := fun s => (Returned (f s), s).
Definition modify (f : Store -> Store) : M unit := fun s => (Returned tt, f s).

Declare Scope py_scope.
Delimit Scope py_scope with py.
Notation "x <- m ;; k" := (bind m (fun x => k))
  (at level 100, m at next level, right associativity) : py_scope.
Notation "m ;; k" := (bind m (fun _ => k))
  (at level 100, right associativity) : py_scope.
Local Open Scope py_scope.

(** Attribute access on an optional object: on [None] it raises
    [AttributeError]. *)
Definition deref {A} (o : option A) : M A :=
  match o with
  | Some a => ret a
  | None => raise AttributeError
  end.

(** [if c: body] *)
Definition when (c : bool) (body : M unit) : M unit :=
  if c then body else ret tt.

(** [for x in l: body] *)
Fixpoint for_each {A} (l : list A) (body : A -> M unit) : M unit :=
  match l with
  | [] => ret tt
  | x :: l' => body x ;; for_each l' body
  end.

(** ** Columns and attributes *)

Definition host_row (i : Z) : M host.row :=
  o <- gets (fun s => host_tbl s !! i) ;; deref o.
Definition clusterhost_row (i : Z) : M clusterhost.row :=
  o <- gets (fun s => clusterhost_tbl s !! i) ;; deref o.
Definition cluster_row (i : Z) : M cluster.row :=
  o <- gets (fun s => cluster_tbl s !! i) ;; deref o.
Definition cluster_state_row (i : Z) : M cluster_state.row :=
  o <- gets (fun s => cluster_state_tbl s !! i) ;; deref o.

Definition modify_host (i : Z) (f : host.row -> host.row) : M unit :=
  modify (with_host_tbl (alter f i)).
Definition modify_clusterhost (i : Z) (f : clusterhost.row -> clusterhost.row) : M unit :=
  modify (with_clusterhost_tbl (alter f i)).
Definition modify_cluster (i : Z) (f : cluster.row -> cluster.row) : M unit :=
  modify (with_cluster_tbl (alter f i)).
Definition modify_cluster_state (i : Z) (f : cluster_state.row -> cluster_state.row) : M unit :=
  modify (with_cluster_state_tbl (alter f i)).

(** [r.state], the column of a state object. *)
Definition col_state (r : StateRef) : M State :=
  o <- gets (state_row r) ;; row <- deref o ;; ret (state row).

(** [r.state = v] on a state object. *)
Definition assign_col_state (r : StateRef) (v : State) : M unit :=
  modify (alter_state_row (set_state v) r).

(** ** Relationships

    [Host.state], [ClusterHost.state] and [Cluster.state] are scalar
    relationships ([uselist=False]) to [HostState], [ClusterHostState]
    and [ClusterState]; the first two declare [backref('host')], the
    third [backref('cluster')].  [Host.clusterhosts] declares
    [backref('host')] on [ClusterHost], [Cluster.clusterhosts] declares
    [backref('cluster')]. *)

(** [e.state] on an entity: its state object, or [None]. *)
Definition rel_state (e : EntityRef) : M (option StateRef) :=
  gets (fun s =>
    match e with
    | HostRef i => (fun _ => HostStateRef i) <$> host_state_tbl s !! i
    | ClusterHostRef i => (fun _ => ClusterHostStateRef i) <$> clusterhost_state_tbl s !! i
    | ClusterRef i => (fun _ => ClusterStateRef i) <$> cluster_state_tbl s !! i
    end).

(** [e.state = 'NAME'] on an entity.  The attribute is a relationship:
    the ORM takes only a mapped object for it and raises
    [AttributeError] for a string. *)
Definition assign_rel_state (e : EntityRef) (v : string) : M unit :=
  raise AttributeError.

(** [r.host] on a state object: the owner that declared
    [backref('host')] on the class of [r].  On a [HostState] it is the
    [Host]; on a [ClusterHostState] it is the [ClusterHost];
    [ClusterState] has no such attribute. *)
Definition backref_host (r : StateRef) : M (option EntityRef) :=
  match r with
  | HostStateRef i => gets (fun s => (fun _ => HostRef i) <$> host_tbl s !! i)
  | ClusterHostStateRef i =>
      gets (fun s => (fun _ => ClusterHostRef i) <$> clusterhost_tbl s !! i)
  | ClusterStateRef _ => raise AttributeError
  end.

(** [r.cluster] on a [ClusterState]. *)
Definition backref_cluster (i : Z) : M (option EntityRef) :=
  gets (fun s => (fun _ => ClusterRef i) <$> cluster_tbl s !! i).

(** [clusterhost.host]: the [Host] with key [host_id], or [None]. *)
Definition clusterhost_host (i : Z) : M (option EntityRef) :=
  row <- clusterhost_row i ;;
  gets (fun s =>
    (fun _ => HostRef (clusterhost.host_id row)) <$> host_tbl s !! clusterhost.host_id row).

(** [e.clusterhosts] on a [Host] or a [Cluster]. *)
Definition rel_clusterhosts (e : EntityRef) : M (list Z) :=
  match e with
  | HostRef i => row <- host_row i ;; ret (host.clusterhosts row)
  | ClusterRef i => row <- cluster_row i ;; ret (cluster.clusterhosts row)
  | ClusterHostRef _ => raise AttributeError
  end.

(** An optional state object as an operand of [==] or [in]. *)
Definition py_of_state_obj (o : option StateRef) : PyVal :=
  match o with
  | Some r => PyState r
  | None => PyNone
  end.

(** ** Numbers and strings *)

(** [float(n)] for an integer [n]: the nearest binary64 float, ties to
    even; an integer that rounds past the largest finite float raises
    [OverflowError]. *)
Definition float_of_Z (n : Z) : Outcome float :=
  match binary_normalize prec emax n 0 false with
  | S754_infinity _ => Raised OverflowError
  | x => Returned (SF2Prim x)
  end.

(** [a / b] on floats. *)
Definition py_truediv (a b : float) : M float :=
  if (b =? 0)%float then raise ZeroDivisionError else ret (a / b)%float.

(** [fmt % args] for a format that has no conversion but [%s].  Too few
    arguments, as well as arguments left over, raise [TypeError]. *)
Fixpoint py_format (fmt : string) (args : list string) : Outcome string :=
  match fmt with
  | EmptyString =>
      match args with
      | [] => Returned EmptyString
      | _ :: _ => Raised TypeError
      end
  | String c rest =>
      if Ascii.eqb c "%"%char then
        match rest with
        | String c' rest' =>
            if Ascii.eqb c' "s"%char then
              match args with
              | [] => Raised TypeError
              | a :: args' =>
                  match py_format rest' args' with
                  | Returned out => Returned (a ++ out)
                  | Raised e => Raised e
                  end
              end
            else Raised ValueError
        | EmptyString => Raised ValueError
        end
      else
        match py_format rest args with
        | Returned out => Returned (String c out)
        | Raised e => Raised e
        end
  end.

Definition lift {A} (o : Outcome A) : M A := fun s => (o, s).

(** ** [StateMixin] *)

Module StateMixin.

(** [self.state == name] and [self.state in names] on the columns. *)
Definition state_is (self : StateRow) (name : string) : bool :=
  py_eq (PyStr (str_of_state (state self))) (PyStr name).
Definition state_in (self : StateRow) (names : list string) : bool :=
  py_in (PyStr (str_of_state (state self))) (map PyStr names).

(** [StateMixin.update], on the columns.  The call of
    [HelperMixin.update] that ends it does nothing. *)
Definition update (self : StateRow) : StateRow :=
  let self :=
    if state_in self ["UNINITIALIZED"; "INITIALIZED"] then
      set_message "" (set_severity Severity.INFO (set_percentage 0%float self))
    else self in
  let self :=
    if state_is self "INSTALLING" then
      if py_eq (PyStr (str_of_severity (severity self))) (PyStr "ERROR") then
        set_state ERROR self
      else if (1 <=? percentage self)%float then
        set_percentage 1%float (set_state SUCCESSFUL self)
      else self
    else self in
  let self :=
    if state_is self "SUCCESSFUL" then set_percentage 1%float self else self in
  self.

(** [super(..., self).update()] reaching [StateMixin.update] on the
    state object [self]. *)
Definition update_at (self : StateRef) : M unit :=
  o <- gets (state_row self) ;;
  _ <- deref o ;;
  modify (alter_state_row update self).

End StateMixin.

(** ** [HostState] *)

Module HostState.

(** One of the three loops of [HostState.update]:
    [for clusterhost in self.host.clusterhosts:
       if clusterhost.state in olds:
         clusterhost.state = new
         clusterhost.state.update()].
    The operand of [in] is [clusterhost.state], the state object. *)
Definition cascade (call_update : StateRef -> M unit) (self : Z)
    (olds : list string) (new : string) : M unit :=
  owner <- backref_host (HostStateRef self) ;;
  owner <- deref owner ;;
  clusterhosts <- rel_clusterhosts owner ;;
  for_each clusterhosts (fun clusterhost =>
    st <- rel_state (ClusterHostRef clusterhost) ;;
    when (py_in (py_of_state_obj st) (map PyStr olds))
      (assign_rel_state (ClusterHostRef clusterhost) new ;;
       st' <- rel_state (ClusterHostRef clusterhost) ;;
       st' <- deref st' ;;
       call_update st')).

(** [HostState.update] *)
Definition update (call_update : StateRef -> M unit) (self : Z) : M unit :=
  host <- backref_host (HostStateRef self) ;;
  st <- col_state (HostStateRef self) ;;
  (if py_eq (PyStr (str_of_state st)) (PyStr "INSTALLING") then
     _ <- deref host ;;
     modify_host self (host.set_reinstall_os false) ;;
     cascade call_update self ["SUCCESSFUL"; "ERROR"] "INSTALLING"
   else if py_eq (PyStr (str_of_state st)) (PyStr "UNINITIALIZED") then
     cascade call_update self
       ["INITIALIZED"; "INSTALLING"; "SUCCESSFUL"; "ERROR"] "UNINITIALIZED"
   else if py_eq (PyStr (str_of_state st)) (PyStr "INITIALIZED") then
     cascade call_update self ["INSTALLING"; "SUCCESSFUL"; "ERROR"] "INITIALIZED"
   else ret tt) ;;
  StateMixin.update_at (HostStateRef self).

End HostState.

(** ** [ClusterHostState] *)

Module ClusterHostState.

(** [ClusterHostState.update].  [host_state] is [self.host.state]:
    [self.host] is the owner of [self], a [ClusterHost], and [.state]
    of a [ClusterHost] is its [ClusterHostState]. *)
Definition update (call_update : StateRef -> M unit) (self : Z) : M unit :=
  owner <- backref_host (ClusterHostStateRef self) ;;
  owner <- deref owner ;;
  host_state <- rel_state owner ;;
  st <- col_state (ClusterHostStateRef self) ;;
  (if py_eq (PyStr (str_of_state st)) (PyStr "INITIALIZED") then
     host_state <- deref host_state ;;
     hst <- col_state host_state ;;
     when (py_in (PyStr (str_of_state hst)) [PyStr "UNINITIALIZED"])
       (assign_col_state host_state INITIALIZED ;;
        call_update host_state)
   else if py_eq (PyStr (str_of_state st)) (PyStr "INSTALLING") then
     host_state <- deref host_state ;;
     hst <- col_state host_state ;;
     when (py_in (PyStr (str_of_state hst)) [PyStr "UNINITIALIZED"; PyStr "INITIALIZED"])
       (assign_col_state host_state INSTALLING ;;
        call_update host_state)
   else ret tt) ;;
  StateMixin.update_at (ClusterHostStateRef self).

End ClusterHostState.

(** ** [ClusterState] *)

Module ClusterState.

(** The [if]/[elif] chain on the state [st] of one member, inside
    either loop of [ClusterState.update]. *)
Definition count (self : Z) (st : State) : M unit :=
  if py_eq (PyStr (str_of_state st)) (PyStr "INSTALLING") then
    r <- cluster_state_row self ;;
    n <- deref (cluster_state.intsalling_hosts r) ;;
    modify_cluster_state self (cluster_state.set_intsalling_hosts (n + 1))
  else if py_eq (PyStr (str_of_state st)) (PyStr "ERROR") then
    r <- cluster_state_row self ;;
    modify_cluster_state self
      (cluster_state.set_failed_hosts (cluster_state.failed_hosts r + 1))
  else if py_eq (PyStr (str_of_state st)) (PyStr "SUCCESSFUL") then
    r <- cluster_state_row self ;;
    modify_cluster_state self
      (cluster_state.set_completed_hosts (cluster_state.completed_hosts r + 1))
  else ret tt.

(** The body of [if self.state == 'INSTALLING':]. *)
Definition aggregate (self : Z) (cluster : Z) (clusterhosts : list Z) : M unit :=
  modify_cluster cluster (cluster.set_reinstall_distributed_system false) ;;
  c <- cluster_row cluster ;;
  (if negb (truthy (cluster.distributed_system c)) then
     for_each clusterhosts (fun clusterhost =>
       host <- clusterhost_host clusterhost ;;
       host <- deref host ;;
       hs <- rel_state host ;;
       hs <- deref hs ;;
       host_state <- col_state hs ;;
       count self host_state)
   else
     for_each clusterhosts (fun clusterhost =>
       chs <- rel_state (ClusterHostRef clusterhost) ;;
       chs <- deref chs ;;
       clusterhost_state <- col_state chs ;;
       count self clusterhost_state)) ;;
  r <- cluster_state_row self ;;
  when (negb (cluster_state.total_hosts r =? 0)%Z)
    (completed <- lift (float_of_Z (cluster_state.completed_hosts r)) ;;
     total <- lift (float_of_Z (cluster_state.total_hosts r)) ;;
     p <- py_truediv completed total ;;
     modify_cluster_state self (cluster_state.set_base (set_percentage p))) ;;
  r <- cluster_state_row self ;;
  n <- deref (cluster_state.intsalling_hosts r) ;;
  msg <- lift (py_format "toal %s, installing %s, complted: %s, error $s"
                 [pretty (cluster_state.total_hosts r);
                  pretty (cluster_state.completed_hosts r);
                  pretty n;
                  pretty (cluster_state.failed_hosts r)]) ;;
  modify_cluster_state self (cluster_state.set_base (set_message msg)) ;;
  r <- cluster_state_row self ;;
  when (negb (cluster_state.failed_hosts r =? 0)%Z)
    (modify_cluster_state self (cluster_state.set_base (set_severity Severity.ERROR))).

(** [ClusterState.update] *)
Definition update (self : Z) : M unit :=
  cluster <- backref_cluster self ;;
  cluster <- deref cluster ;;
  clusterhosts <- rel_clusterhosts cluster ;;
  modify_cluster_state self
    (cluster_state.set_total_hosts (Z.of_nat (length clusterhosts))) ;;
  st <- col_state (ClusterStateRef self) ;;
  when (py_in (PyStr (str_of_state st)) [PyStr "UNINITIALIZED"; PyStr "INITIALIZED"])
    (modify_cluster_state self (cluster_state.set_installing_hosts 0) ;;
     modify_cluster_state self (cluster_state.set_failed_hosts 0) ;;
     modify_cluster_state self (cluster_state.set_completed_hosts 0)) ;;
  st <- col_state (ClusterStateRef self) ;;
  when (py_eq (PyStr (str_of_state st)) (PyStr "INSTALLING"))
    (aggregate self self clusterhosts) ;;
  StateMixin.update_at (ClusterStateRef self).

End ClusterState.

(** ** Method calls *)

(** [o.update()] on a state object, by the class of [o].  [depth] is
    the number of frames left before the interpreter's recursion limit,
    past which it raises [RuntimeError]. *)
Fixpoint call_update (depth : nat) (o : StateRef) : M unit :=
  match depth with
  | O => raise RuntimeError
  | S depth' =>
      match o with
      | HostStateRef i => HostState.update (call_update depth') i
      | ClusterHostStateRef i => ClusterHostState.update (call_update depth') i
      | ClusterStateRef i => ClusterState.update i
      end
  end.

(** The default of [sys.getrecursionlimit()]. *)
Definition recursion_limit : nat := 1000.

(** ** [Host] *)

Module Host.

(** [Host.update].  The operand of [in] is [self.state], the state
    object.  The call of [HelperMixin.update] that ends it does
    nothing. *)
Definition update (depth : nat) (self : Z) : M unit :=
  row <- host_row self ;;
  when (host.reinstall_os row)
    (st <- rel_state (HostRef self) ;;
     when (py_in (py_of_state_obj st) [PyStr "SUCCESSFUL"; PyStr "ERROR"])
       (row <- host_row self ;;
        st <- deref st ;;
        (if host.config_validated row then assign_col_state st INITIALIZED
         else assign_col_state st UNINITIALIZED) ;;
        call_update depth st)) ;;
  row <- host_row self ;;
  match host.os row with
  | Some name => modify_host self (host.set_os_name (Some name))
  | None => modify_host self (host.set_os_name None)
  end.

(** The setter of [patched_os_config].  [logging.info] is not
    modelled. *)
Definition set_patched_os_config (self : Z) (value : dict) : M unit :=
  row <- host_row self ;;
  modify_host self (host.set_os_config (merge_dict (host.os_config row) value)) ;;
  modify_host self (host.set_config_validated false).

(** The setter of [put_os_config]. *)
Definition set_put_os_config (self : Z) (value : dict) : M unit :=
  row <- host_row self ;;
  let os_config := dict_update (host.os_config row) value in
  modify_host self (host.set_os_config os_config) ;;
  modify_host self (host.set_config_validated false).

End Host.

(** ** [ClusterHost] *)

Module ClusterHost.

(** The setter of [patched_package_config]. *)
Definition set_patched_package_config (self : Z) (value : dict) : M unit :=
  row <- clusterhost_row self ;;
  modify_clusterhost self
    (clusterhost.set_package_config (merge_dict (clusterhost.package_config row) value)) ;;
  modify_clusterhost self (clusterhost.set_config_validated false).

(** The setter of [put_package_config]. *)
Definition set_put_package_config (self : Z) (value : dict) : M unit :=
  row <- clusterhost_row self ;;
  let package_config := dict_update (clusterhost.package_config row) value in
  modify_clusterhost self (clusterhost.set_package_config package_config) ;;
  modify_clusterhost self (clusterhost.set_config_validated false).

(** The setters of [patched_os_config] and [put_os_config]: they hand
    the value to the setter of the host. *)
Definition set_patched_os_config (self : Z) (value : dict) : M unit :=
  host <- clusterhost_host self ;;
  match host with
  | Some (HostRef h) => Host.set_patched_os_config h value
  | _ => raise AttributeError
  end.
Definition set_put_os_config (self : Z) (value : dict) : M unit :=
  host <- clusterhost_host self ;;
  match host with
  | Some (HostRef h) => Host.set_put_os_config h value
  | _ => raise AttributeError
  end.

End ClusterHost.

(** ** [Cluster] *)

Module Cluster.

Definition set_patched_os_config (self : Z) (value : dict) : M unit :=
  row <- cluster_row self ;;
  modify_cluster self (cluster.set_os_config (merge_dict (cluster.os_config row) value)) ;;
  modify_cluster self (cluster.set_config_validated false).

Definition set_put_os_config (self : Z) (value : dict) : M unit :=
  row <- cluster_row self ;;
  let os_config := dict_update (cluster.os_config row) value in
  modify_cluster self (cluster.set_os_config os_config) ;;
  modify_cluster self (cluster.set_config_validated false).

Definition set_patched_package_config (self : Z) (value : dict) : M unit :=
  row <- cluster_row self ;;
  let package_config := cluster.package_config row in
  modify_cluster self (cluster.set_package_config (merge_dict package_config value)) ;;
  modify_cluster self (cluster.set_config_validated false).

Definition set_put_package_config (self : Z) (value : dict) : M unit :=
  row <- cluster_row self ;;
  let package_config := dict_update (cluster.package_config row) value in
  modify_cluster self (cluster.set_package_config package_config) ;;
  modify_cluster self (cluster.set_config_validated false).

End Cluster.

(** ** Configuration writes *)

(** The ten setters, as one operation: patch or put, on the blob of a
    host, of a membership or of a cluster. *)
Inductive ConfigWrite :=
  | HostPatchOs (host : Z)
  | HostPutOs (host : Z)
  | ClusterHostPatchPackage (clusterhost : Z)
  | ClusterHostPutPackage (clusterhost : Z)
  | ClusterHostPatchOs (clusterhost : Z)
  | ClusterHostPutOs (clusterhost : Z)
  | ClusterPatchOs (cluster : Z)
  | ClusterPutOs (cluster : Z)
  | ClusterPatchPackage (cluster : Z)
  | ClusterPutPackage (cluster : Z).

Definition write (w : ConfigWrite) (value : dict) : M unit :=
  match w with
  | HostPatchOs h => Host.set_patched_os_config h value
  | HostPutOs h => Host.set_put_os_config h value
  | ClusterHostPatchPackage c => ClusterHost.set_patched_package_config c value
  | ClusterHostPutPackage c => ClusterHost.set_put_package_config c value
  | ClusterHostPatchOs c => ClusterHost.set_patched_os_config c value
  | ClusterHostPutOs c => ClusterHost.set_put_os_config c value
  | ClusterPatchOs c => Cluster.set_patched_os_config c value
  | ClusterPutOs c => Cluster.set_put_os_config c value
  | ClusterPatchPackage c => Cluster.set_patched_package_config c value
  | ClusterPutPackage c => Cluster.set_put_package_config c value
  end.

(** * Vocabulary of the statements *)

(** The outcome of a computation and the store it leaves. *)
Definition outcome {A} (m : M A) (s : Store) : Outcome A := fst (m s).
Definition store_after {A} (m : M A) (s : Store) : Store := snd (m s).

Definition never_returns {A} (m : M A) : Prop :=
  forall s, exists e s', m s = (Raised e, s').

(** [0.0 <= p <= 1.0] *)
Definition in_range (p : float) : Prop :=
  (0 <=? p)%float = true /\ (p <=? 1)%float = true.

(** The owner of a state object is in the store. *)
Definition owner_present (o : StateRef) (s : Store) : Prop :=
  match o with
  | HostStateRef i => is_Some (host_tbl s !! i)
  | ClusterHostStateRef i => is_Some (clusterhost_tbl s !! i)
  | ClusterStateRef i => is_Some (cluster_tbl s !! i)
  end.

(** A cluster state whose state is [INSTALLING]: the case in which
    [ClusterState.update] aggregates over the members. *)
Definition aggregating (o : StateRef) (r : StateRow) : Prop :=
  match o with
  | ClusterStateRef _ => state r = INSTALLING
  | _ => False
  end.

(** The entity that owns the blob a write changes: the host for an OS
    configuration reached through a membership. *)
Definition blob_owner (w : ConfigWrite) (s : Store) : option EntityRef :=
  match w with
  | HostPatchOs h | HostPutOs h => (fun _ => HostRef h) <$> host_tbl s !! h
  | ClusterHostPatchPackage c | ClusterHostPutPackage c =>
      (fun _ => ClusterHostRef c) <$> clusterhost_tbl s !! c
  | ClusterHostPatchOs c | ClusterHostPutOs c =>
      match clusterhost_tbl s !! c with
      | Some row =>
          (fun _ => HostRef (clusterhost.host_id row))
            <$> host_tbl s !! clusterhost.host_id row
      | None => None
      end
  | ClusterPatchOs c | ClusterPutOs c | ClusterPatchPackage c | ClusterPutPackage c =>
      (fun _ => ClusterRef c) <$> cluster_tbl s !! c
  end.

Definition config_validated (e : EntityRef) (s : Store) : option bool :=
  match e with
  | HostRef i => host.config_validated <$> host_tbl s !! i
  | ClusterHostRef i => clusterhost.config_validated <$> clusterhost_tbl s !! i
  | ClusterRef i => cluster.config_validated <$> cluster_tbl s !! i
  end.

(** What [HostState.update] does to the store when the host state [r]
    and its host [h] are there. *)
Definition HostState_effect (i : Z) (r : StateRow) (h : host.row) (s : Store) : Store :=
  with_host_state_tbl (insert i (StateMixin.update r))
    (if decide (state r = INSTALLING)
     then with_host_tbl (insert i (host.set_reinstall_os false h)) s
     else s).

(** What [ClusterState.update] does to the row [r] of a cluster that
    has [n] members, when the state is not [INSTALLING]: it counts the
    members, resets the three other counters when the state is
    [UNINITIALIZED] or [INITIALIZED], and applies [StateMixin.update]. *)
Definition ClusterState_idle (n : nat) (r : cluster_state.row) : cluster_state.row :=
  let idle :=
    StateMixin.state_in (cluster_state.base r) ["UNINITIALIZED"; "INITIALIZED"] in
  cluster_state.mk
    (StateMixin.update (cluster_state.base r))
    (Z.of_nat n)
    (if idle then 0 else cluster_state.installing_hosts r)
    (if idle then 0 else cluster_state.completed_hosts r)
    (if idle then 0 else cluster_state.failed_hosts r)
    (cluster_state.intsalling_hosts r).

(** ** Stores of the examples *)

Definition a_row (st : State) (p : float) : StateRow :=
  mkStateRow st p "" Severity.INFO.

Definition a_host (reinstall validated : bool) (clusterhosts : list Z) : host.row :=
  host.mk (Some "CentOS") (Some "CentOS") [] validated reinstall clusterhosts.

Definition a_membership (cluster_id host_id : Z) : clusterhost.row :=
  clusterhost.mk cluster_id host_id [] true.

(** Host 1 alone, with the given flags and state. *)
Definition one_host (reinstall validated : bool) (r : StateRow) : Store :=
  mkStore {[ 1 := a_host reinstall validated [] ]} {[ 1 := r ]} ∅ ∅ ∅ ∅.

(** Host 1 with the memberships 11, 12 and 13, in the given states. *)
Definition host_with_three (st : State) (m1 m2 m3 : State) : Store :=
  mkStore
    {[ 1 := a_host false false [11; 12; 13] ]}
    {[ 1 := a_row st 0 ]}
    (list_to_map [(11, a_membership 7 1); (12, a_membership 8 1); (13, a_membership 9 1)])
    (list_to_map [(11, a_row m1 0); (12, a_row m2 0); (13, a_row m3 0)])
    ∅ ∅.

(** Host 1 with the membership 11, in the given states. *)
Definition host_with_one (host_st membership_st : State) : Store :=
  mkStore
    {[ 1 := a_host false true [11] ]}
    {[ 1 := a_row host_st 0 ]}
    {[ 11 := a_membership 7 1 ]}
    {[ 11 := a_row membership_st 0 ]}
    ∅ ∅.

(** Cluster 7 with a distributed system and no membership, in state
    [st] with percentage [p] and all counters at zero. *)
Definition empty_cluster (st : State) (p : float) : Store :=
  mkStore ∅ ∅ ∅ ∅
    {[ 7 := cluster.mk true (Some 1) [] [] true [] ]}
    {[ 7 := cluster_state.mk (a_row st p) 0 0 0 0 None ]}.

(** Cluster 7 with a distributed system, in state [INSTALLING] with all
    counters at zero.  Its memberships 11, 12, 13 and 14 are in the
    states [SUCCESSFUL], [SUCCESSFUL], [ERROR] and [INSTALLING]; they
    belong to the hosts 1 to 4, which have finished their own
    installation. *)
Definition cluster_of_four : Store :=
  mkStore
    (list_to_map [(1, a_host false true [11]); (2, a_host false true [12]);
                  (3, a_host false true [13]); (4, a_host false true [14])])
    (list_to_map [(1, a_row SUCCESSFUL 1); (2, a_row SUCCESSFUL 1);
                  (3, a_row SUCCESSFUL 1); (4, a_row SUCCESSFUL 1)])
    (list_to_map [(11, a_membership 7 1); (12, a_membership 7 2);
                  (13, a_membership 7 3); (14, a_membership 7 4)])
    (list_to_map [(11, a_row SUCCESSFUL 1); (12, a_row SUCCESSFUL 1);
                  (13, a_row ERROR 0); (14, a_row INSTALLING 0)])
    {[ 7 := cluster.mk true (Some 1) [] [] true [11; 12; 13; 14] ]}
    {[ 7 := cluster_state.mk (a_row INSTALLING 0) 0 0 0 0 None ]}.

(** Cluster 7 with a distributed system, in state [INSTALLING] with all
    counters at zero, and its one membership 11 in state [ERROR]. *)
Definition cluster_of_one_failed : Store :=
  mkStore
    {[ 1 := a_host false true [11] ]}
    {[ 1 := a_row SUCCESSFUL 1 ]}
    {[ 11 := a_membership 7 1 ]}
    {[ 11 := a_row ERROR 0 ]}
    {[ 7 := cluster.mk true (Some 1) [] [] true [11] ]}
    {[ 7 := cluster_state.mk (a_row INSTALLING 0) 0 0 0 0 None ]}.

(** Cluster 7 with a distributed system and the memberships 11 and 12,
    in state [INITIALIZED] with percentage [0.75] and with the counters
    of an earlier installation: total 5, installing 1, completed 3,
    failed 1. *)
Definition cluster_with_old_counters : Store :=
  mkStore
    (list_to_map [(1, a_host false true [11]); (2, a_host false true [12])])
    (list_to_map [(1, a_row INITIALIZED 0); (2, a_row INITIALIZED 0)])
    (list_to_map [(11, a_membership 7 1); (12, a_membership 7 2)])
    (list_to_map [(11, a_row INITIALIZED 0); (12, a_row INITIALIZED 0)])
    {[ 7 := cluster.mk true (Some 1) [] [] true [11; 12] ]}
    {[ 7 := cluster_state.mk (a_row INITIALIZED 0.75) 5 1 3 1 None ]}.

(** * The other entities *)

(** ** [ClusterHost.update] *)

(** [ClusterHost.update].  The operand of [in] is [self.state], the
    state object.  The method does not call [HelperMixin.update]. *)
Definition ClusterHost_update (depth : nat) (self : Z) : M unit :=
  host <- clusterhost_host self ;;
  host <- deref host ;;
  hrow <- match host with
          | HostRef h => host_row h
          | _ => raise AttributeError
          end ;;
  when (host.reinstall_os hrow)
    (st <- rel_state (ClusterHostRef self) ;;
     when (py_in (py_of_state_obj st) [PyStr "SUCCESSFUL"; PyStr "ERROR"])
       (row <- clusterhost_row self ;;
        st <- deref st ;;
        (if clusterhost.config_validated row then assign_col_state st INITIALIZED
         else assign_col_state st UNINITIALIZED) ;;
        call_update depth st)).

(** ** [SwitchMachine] *)

Module SwitchMachine.
Section Vlans.

(** The items of [vlans], compared by value. *)
Context {A : Type} `{EqDecision A}.

(** The setter of [patched_vlans]: the new value of [self.vlans].  An
    empty [value] stands for every false value, on which the setter
    returns at once. *)
Definition set_patched_vlans (vlans value : list A) : list A :=
  match value with
  | [] => vlans
  | _ :: _ =>
      fold_left
        (fun (vlans : list A) (item : A) =>
           if bool_decide (item ∈ vlans) then vlans else (vlans ++ [item])%list)
        value vlans
  end.

End Vlans.
End SwitchMachine.

(** ** [Machine] *)

(** The JSON columns of table [machine]. *)
Module machine.
Record row := mk {
  ipmi_credentials : dict;
  tag : dict;
  location : dict
}.
End machine.

Module Machine.

(** The setter of [patched_tag]: it updates a copy of the tag and then
    assigns [value]. *)
Definition set_patched_tag (self : machine.row) (value : dict) : machine.row :=
  let tag := dict_update (machine.tag self) value in
  machine.mk (machine.ipmi_credentials self) value (machine.location self).

(** The setter of [patched_location]. *)
Definition set_patched_location (self : machine.row) (value : dict) : machine.row :=
  let location := dict_update (machine.location self) value in
  machine.mk (machine.ipmi_credentials self) (machine.tag self) location.

End Machine.

(** ** [Adapter] *)

(** Table [distributed_system]. *)
Module distributed_system.
Record row := mk {
  id : Z;
  name : string
}.
End distributed_system.

(** Table [adapter_role]. *)
Module adapter_role.
Record row := mk {
  id : Z;
  name : string
}.
End adapter_role.

(** Table [adapter] with what its relationships reach: the related
    distributed system and the keys of the related installers ([None]
    when there is none), the roles, and the keys of the supported
    operating systems. *)
Module adapter.
Record row := mk {
  name : string;
  parent_id : option Z;
  distributed_system : option distributed_system.row;
  os_installer : option Z;
  package_installer : option Z;
  roles : list adapter_role.row;
  supported_oses : list Z
}.
End adapter.

(** [adapter.parent]: the adapter with key [parent_id], or [None]. *)
Definition adapter_parent (adapters : gmap Z adapter.row) (self : adapter.row)
    : option adapter.row :=
  match adapter.parent_id self with
  | Some p => adapters !! p
  | None => None
  end.

Module Adapter.
Section Inherited.

Variable adapters : gmap Z adapter.row.

(** The five properties that fall back on the parent.  [depth] is the
    number of frames left before the recursion limit. *)
Fixpoint adapter_package_installer (depth : nat) (self : adapter.row)
    : Outcome (option Z) :=
  match depth with
  | O => Raised RuntimeError
  | S depth' =>
      match adapter.package_installer self with
      | Some installer => Returned (Some installer)
      | None =>
          match adapter_parent adapters self with
          | Some parent => adapter_package_installer depth' parent
          | None => Returned None
          end
      end
  end.

Fixpoint adapter_os_installer (depth : nat) (self : adapter.row)
    : Outcome (option Z) :=
  match depth with
  | O => Raised RuntimeError
  | S depth' =>
      match adapter.os_installer self with
      | Some installer => Returned (Some installer)
      | None =>
          match adapter_parent adapters self with
          | Some parent => adapter_os_installer depth' parent
          | None => Returned None
          end
      end
  end.

Fixpoint adapter_distributed_system (depth : nat) (self : adapter.row)
    : Outcome (option distributed_system.row) :=
  match depth with
  | O => Raised RuntimeError
  | S depth' =>
      match adapter.distributed_system self with
      | Some system => Returned (Some system)
      | None =>
          match adapter_parent adapters self with
          | Some parent => adapter_distributed_system depth' parent
          | None => Returned None
          end
      end
  end.

Fixpoint adapter_supported_oses (depth : nat) (self : adapter.row)
    : Outcome (list Z) :=
  match depth with
  | O => Raised RuntimeError
  | S depth' =>
      match adapter.supported_oses self with
      | (_ :: _) as supported_oses => Returned supported_oses
      | [] =>
          match adapter_parent adapters self with
          | Some parent => adapter_supported_oses depth' parent
          | None => Returned []
          end
      end
  end.

Fixpoint adapter_roles (depth : nat) (self : adapter.row)
    : Outcome (list adapter_role.row) :=
  match depth with
  | O => Raised RuntimeError
  | S depth' =>
      match adapter.roles self with
      | (_ :: _) as roles => Returned roles
      | [] =>
          match adapter_parent adapters self with
          | Some parent => adapter_roles depth' parent
          | None => Returned []
          end
      end
  end.

End Inherited.
End Adapter.

(** ** The cluster with its operating system and adapter *)

(** The columns and relationships of table [cluster] that
    [Cluster.update] keeps in step: the name of the related operating
    system and the key of the related adapter ([None] when there is
    none), and the three name columns. *)
Module cluster_info.
Record row := mk {
  os : option string;
  os_name : option string;
  adapter : option Z;
  adapter_name : option string;
  distributed_system_name : option string
}.
Definition set_os_name (v : option string) (r : row) : row :=
  mk (os r) v (adapter r) (adapter_name r) (distributed_system_name r).
Definition set_adapter_name (v : option string) (r : row) : row :=
  mk (os r) (os_name r) (adapter r) v (distributed_system_name r).
Definition set_distributed_system_name (v : option string) (r : row) : row :=
  mk (os r) (os_name r) (adapter r) (adapter_name r) v.
End cluster_info.

(** [cluster.distributed_system = v] on a row of table [cluster]. *)
Definition cluster_set_distributed_system (v : option Z) (r : cluster.row) : cluster.row :=
  cluster.mk (cluster.reinstall_distributed_system r) v (cluster.os_config r)
             (cluster.package_config r) (cluster.config_validated r)
             (cluster.clusterhosts r).

(** The store together with the further columns of the clusters and
    with the adapters. *)
Record World := mkWorld {
  store : Store;
  cluster_info_tbl : gmap Z cluster_info.row;
  adapter_tbl : gmap Z adapter.row
}.

Definition W (A : Type) : Type := World -> Outcome A * World.

Definition wret {A} (a : A) : W A := fun w => (Returned a, w).
Definition wraise {A} (e : Exn) : W A := fun w => (Raised e, w).
Definition wbind {A B} (m : W A) (k : A -> W B) : W B :=
  fun w =>
    match m w with
    | (Returned a, w') => k a w'
    | (Raised e, w') => (Raised e, w')
    end.

(** A computation on the store, run in the world. *)
Definition in_store {A} (m : M A) : W A :=
  fun w =>
    match m (store w) with
    | (o, s') => (o, mkWorld s' (cluster_info_tbl w) (adapter_tbl w))
    end.

Definition wlift {A} (o : Outcome A) : W A := fun w => (o, w).

Definition wderef {A} (o : option A) : W A :=
  match o with
  | Some a => wret a
  | None => wraise AttributeError
  end.

Definition wwhen (c : bool) (body : W unit) : W unit :=
  if c then body else wret tt.

Declare Scope world_scope.
Delimit Scope world_scope with world.
Notation "x <- m ;; k" := (wbind m (fun x => k))
  (at level 100, m at next level, right associativity) : world_scope.
Notation "m ;; k" := (wbind m (fun _ => k))
  (at level 100, right associativity) : world_scope.

Definition cluster_info_row (i : Z) : W cluster_info.row :=
  fun w => wderef (cluster_info_tbl w !! i) w.

Definition modify_cluster_info (i : Z) (f : cluster_info.row -> cluster_info.row) : W unit :=
  fun w =>
    (Returned tt, mkWorld (store w) (alter f i (cluster_info_tbl w)) (adapter_tbl w)).

(** [cluster.adapter]: the adapter with the key the cluster holds, or
    [None]. *)
Definition cluster_adapter (i : Z) : W (option adapter.row) :=
  (info <- cluster_info_row i ;;
   fun w =>
     (Returned match cluster_info.adapter info with
               | Some a => adapter_tbl w !! a
               | None => None
               end, w))%world.

(** [Cluster.update].  The operand of [in] is [self.state], the state
    object.  The call of [HelperMixin.update] that ends it does
    nothing. *)
Definition Cluster_update (depth : nat) (self : Z) : W unit :=
  (row <- in_store (cluster_row self) ;;
   wwhen (cluster.reinstall_distributed_system row)
     (st <- in_store (rel_state (ClusterRef self)) ;;
      wwhen (py_in (py_of_state_obj st) [PyStr "SUCCESSFUL"; PyStr "ERROR"])
        (in_store
           (row <- cluster_row self ;;
            st <- deref st ;;
            (if cluster.config_validated row then assign_col_state st INITIALIZED
             else assign_col_state st UNINITIALIZED) ;;
            call_update depth st)%py)) ;;
   info <- cluster_info_row self ;;
   match cluster_info.os info with
   | Some os_name => modify_cluster_info self (cluster_info.set_os_name (Some os_name))
   | None =>
       modify_cluster_info self (cluster_info.set_os_name None) ;;
       in_store (modify_cluster self (cluster.set_os_config []))
   end ;;
   adapter <- cluster_adapter self ;;
   match adapter with
   | Some adapter =>
       modify_cluster_info self
         (cluster_info.set_adapter_name (Some (adapter.name adapter))) ;;
       system <- (fun w =>
                    wlift (Adapter.adapter_distributed_system (adapter_tbl w) depth adapter) w) ;;
       in_store
         (modify_cluster self
            (cluster_set_distributed_system (distributed_system.id <$> system))) ;;
       system <- wderef system ;;
       modify_cluster_info self
         (cluster_info.set_distributed_system_name
            (Some (distributed_system.name system)))
   | None =>
       modify_cluster_info self (cluster_info.set_adapter_name None) ;;
       in_store (modify_cluster self (cluster_set_distributed_system None)) ;;
       modify_cluster_info self (cluster_info.set_distributed_system_name None)
   end)%world.

(** [Cluster.initialize].  It reads [adapter.roles], the adapter's own
    roles, and does not call [HelperMixin.initialize]. *)
Definition Cluster_initialize (self : Z) : W unit :=
  (adapter <- cluster_adapter self ;;
   match adapter with
   | Some adapter =>
       in_store
         (Cluster.set_put_package_config self
            [("roles",
              JList (map (fun role => JStr (adapter_role.name role))
                         (adapter.roles adapter)))])
   | None => wret tt
   end)%world.

(** ** [ClusterHost.roles] *)

(** [clusterhost.cluster]: the [Cluster] with key [cluster_id], or
    [None]. *)
Definition clusterhost_cluster (i : Z) : M (option Z) :=
  row <- clusterhost_row i ;;
  gets (fun s =>
    (fun _ => clusterhost.cluster_id row) <$> cluster_tbl s !! clusterhost.cluster_id row).

(** The items that [for x in v] goes through: those of a list, the
    characters of a string, the keys of a mapping; another value is not
    iterable. *)
Definition py_iter (v : json) : Outcome (list json) :=
  match v with
  | JList l => Returned l
  | JStr s => Returned (map (fun c => JStr (String c EmptyString)) (list_ascii_of_string s))
  | JDict d => Returned (map (fun kv => JStr (fst kv)) d)
  | _ => Raised TypeError
  end.

(** [role_name in role_mapping] with [role_mapping[role_name]], for a
    mapping keyed by strings: a list or a mapping is not hashable; a
    string is looked up; another value is no key. *)
Definition role_of (role_mapping : gmap string adapter_role.row) (role_name : json)
    : Outcome (option adapter_role.row) :=
  match role_name with
  | JList _ | JDict _ => Raised TypeError
  | JStr s => Returned (role_mapping !! s)
  | _ => Returned None
  end.

(** The second loop of [ClusterHost.roles]. *)
Fixpoint filter_roles (role_mapping : gmap string adapter_role.row)
    (role_names : list json) (filtered_roles : list adapter_role.row)
    : Outcome (list adapter_role.row) :=
  match role_names with
  | [] => Returned filtered_roles
  | role_name :: role_names' =>
      match role_of role_mapping role_name with
      | Returned (Some role) =>
          filter_roles role_mapping role_names' (filtered_roles ++ [role])%list
      | Returned None => filter_roles role_mapping role_names' filtered_roles
      | Raised e => Raised e
      end
  end.

(** [ClusterHost.roles] *)
Definition ClusterHost_roles (self : Z) : W (option (list adapter_role.row)) :=
  (row <- in_store (clusterhost_row self) ;;
   match dict_get "roles" (clusterhost.package_config row) with
   | Some role_names =>
       cluster <- in_store (clusterhost_cluster self) ;;
       cluster <- wderef cluster ;;
       adapter <- cluster_adapter cluster ;;
       adapter <- wderef adapter ;;
       let roles := adapter.roles adapter in
       let role_mapping :=
         fold_left
           (fun (m : gmap string adapter_role.row) role =>
              <[adapter_role.name role := role]> m)
           roles ∅ in
       role_names <- wlift (py_iter role_names) ;;
       filtered_roles <- wlift (filter_roles role_mapping role_names []) ;;
       wret (Some filtered_roles)
   | None => wret None
   end)%world.

(** ** Vocabulary of the further statements *)

(** The writes that put, as opposed to patch. *)
Definition is_put (w : ConfigWrite) : bool :=
  match w with
  | HostPutOs _ | ClusterHostPutPackage _ | ClusterHostPutOs _
  | ClusterPutOs _ | ClusterPutPackage _ => true
  | _ => false
  end.

(** The blob a write changes, when its owner is in the store. *)
Definition blob (w : ConfigWrite) (s : Store) : option dict :=
  match w with
  | HostPatchOs h | HostPutOs h => host.os_config <$> host_tbl s !! h
  | ClusterHostPatchPackage c | ClusterHostPutPackage c =>
      clusterhost.package_config <$> clusterhost_tbl s !! c
  | ClusterHostPatchOs c | ClusterHostPutOs c =>
      match clusterhost_tbl s !! c with
      | Some row => host.os_config <$> host_tbl s !! clusterhost.host_id row
      | None => None
      end
  | ClusterPatchOs c | ClusterPutOs c => cluster.os_config <$> cluster_tbl s !! c
  | ClusterPatchPackage c | ClusterPutPackage c =>
      cluster.package_config <$> cluster_tbl s !! c
  end.

(** [resolves adapters own a r]: going from the adapter [a] up through
    the parents, [r] is the value of the first adapter that has one of
    its own, and [None] when the chain ends without one. *)
Inductive resolves {X : Type} (adapters : gmap Z adapter.row)
    (own : adapter.row -> option X) : adapter.row -> option X -> Prop :=
  | resolves_own (a : adapter.row) (x : X) :
      own a = Some x -> resolves adapters own a (Some x)
  | resolves_root (a : adapter.row) :
      own a = None -> adapter_parent adapters a = None ->
      resolves adapters own a None
  | resolves_parent (a p : adapter.row) (r : option X) :
      own a = None -> adapter_parent adapters a = Some p ->
      resolves adapters own p r -> resolves adapters own a r.

(** A list as an optional value: an empty list is false. *)
Definition nonempty {X : Type} (l : list X) : option (list X) :=
  match l with
  | [] => None
  | _ :: _ => Some l
  end.

(** The shape the five inherited properties share. *)
Fixpoint inherited {X : Type} (adapters : gmap Z adapter.row)
    (own : adapter.row -> option X) (depth : nat) (self : adapter.row)
    : Outcome (option X) :=
  match depth with
  | O => Raised RuntimeError
  | S depth' =>
      match own self with
      | Some x => Returned (Some x)
      | None =>
          match adapter_parent adapters self with
          | Some parent => inherited adapters own depth' parent
          | None => Returned None
          end
      end
  end.

(** The list an inherited list property returns. *)
Definition or_empty {X : Type} (o : Outcome (option (list X))) : Outcome (list X) :=
  match o with
  | Returned (Some l) => Returned l
  | Returned None => Returned []
  | Raised e => Raised e
  end.

(** The adapter a cluster is related to, in a world. *)
Definition adapter_of (w : World) (info : cluster_info.row) : option adapter.row :=
  match cluster_info.adapter info with
  | Some a => adapter_tbl w !! a
  | None => None
  end.

(** The world after the part of [Cluster.update] that looks at the
    operating system, for a cluster whose rows are [c] and [info]. *)
Definition os_synced (i : Z) (c : cluster.row) (info : cluster_info.row) (w : World) : World :=
  mkWorld
    (with_cluster_tbl
       (insert i match cluster_info.os info with
                 | Some _ => c
                 | None => cluster.set_os_config [] c
                 end)
       (store w))
    (<[i := cluster_info.set_os_name (cluster_info.os info) info]> (cluster_info_tbl w))
    (adapter_tbl w).

(** What a computation on the world returns or raises, and the world it
    leaves. *)
Definition world_outcome {A} (m : W A) (w : World) : Outcome A := fst (m w).
Definition world_after {A} (m : W A) (w : World) : World := snd (m w).

(** The hosts, the memberships and the state records of a world. *)
Definition besides_clusters (w : World) :=
  (host_tbl (store w), host_state_tbl (store w), clusterhost_tbl (store w),
   clusterhost_state_tbl (store w), cluster_state_tbl (store w)).

(** The columns [os_name] and [os_config] of cluster [i]. *)
Definition os_columns (i : Z) (w : World) : option (option string * dict) :=
  match cluster_tbl (store w) !! i, cluster_info_tbl w !! i with
  | Some c, Some info => Some (cluster_info.os_name info, cluster.os_config c)
  | _, _ => None
  end.

(** The columns [adapter_name], [distributed_system] and
    [distributed_system_name] of cluster [i]. *)
Definition adapter_columns (i : Z) (w : World)
    : option (option string * option Z * option string) :=
  match cluster_tbl (store w) !! i, cluster_info_tbl w !! i with
  | Some c, Some info =>
      Some (cluster_info.adapter_name info, cluster.distributed_system c,
            cluster_info.distributed_system_name info)
  | _, _ => None
  end.

(** The role of the name [n] among [roles]: the last one, when several
    have the name. *)
Definition role_named (roles : list adapter_role.row) (n : string)
    : option adapter_role.row :=
  last (filter (fun r => adapter_role.name r = n) roles).

(** ** Worlds of the examples *)

(** The adapter 1 has a distributed system and two roles; the adapter 2
    inherits from it; the adapter 3 has neither a distributed system nor
    a parent. *)
Definition some_adapters : gmap Z adapter.row :=
  list_to_map
    [(1, adapter.mk "openstack" None (Some (distributed_system.mk 5 "openstack"))
           None None
           [adapter_role.mk 1 "controller"; adapter_role.mk 2 "compute"] []);
     (2, adapter.mk "openstack_ha" (Some 1) None None None [] []);
     (3, adapter.mk "os_only" None None None None [] [])].

(** Cluster 7 in state [SUCCESSFUL], flagged for reinstall, with the
    given operating system and adapter and with [os_config]
    [{"language": "EN"}]; its membership 11 of host 1 has the given
    [package_config]. *)
Definition a_world (os : option string) (adapter : option Z) (package_config : dict) : World :=
  mkWorld
    (mkStore
       {[ 1 := a_host false true [11] ]}
       {[ 1 := a_row SUCCESSFUL 1 ]}
       {[ 11 := clusterhost.mk 7 1 package_config true ]}
       {[ 11 := a_row SUCCESSFUL 1 ]}
       {[ 7 := cluster.mk true (Some 9) [("language", JStr "EN")] [] true [11] ]}
       {[ 7 := cluster_state.mk (a_row SUCCESSFUL 1) 0 0 0 0 None ]})
    {[ 7 := cluster_info.mk os (Some "stale") adapter (Some "stale") (Some "stale") ]}
    some_adapters.

(** * Properties *)

(** ** Comparisons *)

Lemma py_in_state_obj_strs (o : option StateRef) (names : list string) :
  py_in (py_of_state_obj o) (map PyStr names) = false.
Proof.
  induction names as [|n names IH]; [reflexivity|].
  cbn. destruct o; cbn; exact IH.
Qed.

(** ** [StateMixin.update] on the columns *)

(** Case analysis on the columns of a state row [r], then on each test
    [percentage >= 1.0] met along the way. *)
Ltac by_columns r :=
  let st := fresh "st" in
  let p := fresh "p" in
  let m := fresh "m" in
  let sv := fresh "sv" in
  destruct r as [st p m sv];
  unfold StateMixin.update, StateMixin.state_in, StateMixin.state_is;
  destruct st, sv; cbn;
  repeat first
    [ match goal with
      | H : (1 <=? ?q)%float = _ |- context [(1 <=? ?q)%float] => rewrite !H; cbn
      end
    | match goal with
      | |- context [(1 <=? ?q)%float] => destruct (1 <=? q)%float eqn:?; cbn
      end ].

Lemma StateMixin_update_idempotent (r : StateRow) :
  StateMixin.update (StateMixin.update r) = StateMixin.update r.
Proof. by_columns r; reflexivity. Qed.

Lemma StateMixin_update_successful (r : StateRow) :
  state (StateMixin.update r) = SUCCESSFUL ->
  percentage (StateMixin.update r) = 1%float.
Proof. by_columns r; intros H; try discriminate H; reflexivity. Qed.

Lemma StateMixin_update_reset (r : StateRow) :
  state (StateMixin.update r) = UNINITIALIZED \/
  state (StateMixin.update r) = INITIALIZED ->
  percentage (StateMixin.update r) = 0%float /\
  severity (StateMixin.update r) = Severity.INFO /\
  message (StateMixin.update r) = "".
Proof. by_columns r; intros [H|H]; try discriminate H; auto. Qed.

Lemma StateMixin_update_range (r : StateRow) :
  in_range (percentage r) -> in_range (percentage (StateMixin.update r)).
Proof. unfold in_range; by_columns r; intros [H0 H1]; auto. Qed.

(** ** Running the methods on a store *)

Lemma for_each_skip {A} (l : list A) (body : A -> M unit) (s : Store) :
  (forall x, body x s = (Returned tt, s)) ->
  for_each l body s = (Returned tt, s).
Proof.
  intros Hbody. induction l as [|x l IH]; [reflexivity|].
  cbn. unfold bind. rewrite Hbody. exact IH.
Qed.

(** Unfolds the operations of [M] and the attribute accesses, so that a
    method applied to a store shows the lookups it makes. *)
Ltac unfold_ops :=
  unfold host_row, clusterhost_row, cluster_row, cluster_state_row,
         modify_host, modify_clusterhost, modify_cluster, modify_cluster_state,
         col_state, assign_col_state, assign_rel_state, rel_state, backref_host,
         backref_cluster, clusterhost_host, rel_clusterhosts,
         StateMixin.update_at, when, lift;
  unfold deref;
  unfold bind, gets, ret, raise, modify;
  cbn [state_row alter_state_row py_of_state_obj
       with_host_tbl with_host_state_tbl with_clusterhost_tbl
       with_clusterhost_state_tbl with_cluster_tbl with_cluster_state_tbl
       host_tbl host_state_tbl clusterhost_tbl clusterhost_state_tbl
       cluster_tbl cluster_state_tbl fmap option_fmap option_map].

Lemma cascade_skips call (i : Z) (olds : list string) (new : string)
    (s : Store) (h : host.row) :
  host_tbl s !! i = Some h ->
  HostState.cascade call i olds new s = (Returned tt, s).
Proof.
  intros Hh. unfold HostState.cascade. unfold_ops. rewrite Hh. unfold_ops. rewrite Hh. unfold_ops.
  apply for_each_skip. intros x. unfold_ops.
  rewrite py_in_state_obj_strs. reflexivity.
Qed.

Lemma alter_as_insert {A} (f : A -> A) (m : gmap Z A) (i : Z) (x : A) :
  m !! i = Some x -> alter f i m = <[i := f x]> m.
Proof.
  intros Hx. apply map_eq. intros j.
  rewrite lookup_alter, lookup_insert. case_decide; [|reflexivity].
  rewrite Hx. reflexivity.
Qed.

(** Reduces the table projections of a store built by [with_*]. *)
Ltac reduce_tables :=
  unfold with_host_tbl, with_host_state_tbl, with_clusterhost_tbl,
         with_clusterhost_state_tbl, with_cluster_tbl, with_cluster_state_tbl;
  cbn [host_tbl host_state_tbl clusterhost_tbl clusterhost_state_tbl
       cluster_tbl cluster_state_tbl].

(** Decides the comparisons of a known state or severity with a name. *)
Ltac compare_names :=
  cbn [str_of_state str_of_severity py_eq py_in existsb map
       String.eqb Ascii.eqb Bool.eqb orb negb].

Lemma HostState_update_runs call (i : Z) (s : Store) (r : StateRow) (h : host.row) :
  host_state_tbl s !! i = Some r ->
  host_tbl s !! i = Some h ->
  HostState.update call i s = (Returned tt, HostState_effect i r h s).
Proof.
  intros Hr Hh. unfold HostState.update, HostState_effect.
  unfold_ops. rewrite Hh. unfold_ops. rewrite Hr. unfold_ops.
  destruct (state r) eqn:Est; compare_names; unfold_ops.
  - erewrite cascade_skips by exact Hh. unfold_ops.
    rewrite Hr. reduce_tables. rewrite (alter_as_insert _ _ _ _ Hr). reflexivity.
  - erewrite cascade_skips by exact Hh. unfold_ops.
    rewrite Hr. reduce_tables. rewrite (alter_as_insert _ _ _ _ Hr). reflexivity.
  - erewrite cascade_skips by (unfold_ops; rewrite lookup_alter_eq, Hh; reflexivity).
    unfold_ops. rewrite Hr. reduce_tables.
    rewrite (alter_as_insert _ _ _ _ Hr), (alter_as_insert _ _ _ _ Hh).
    reflexivity.
  - rewrite Hr. reduce_tables. rewrite (alter_as_insert _ _ _ _ Hr). reflexivity.
  - rewrite Hr. reduce_tables. rewrite (alter_as_insert _ _ _ _ Hr). reflexivity.
Qed.

Lemma ClusterHostState_update_runs call (i : Z) (s : Store)
    (r : StateRow) (c : clusterhost.row) :
  clusterhost_state_tbl s !! i = Some r ->
  clusterhost_tbl s !! i = Some c ->
  ClusterHostState.update call i s =
  (Returned tt, with_clusterhost_state_tbl (insert i (StateMixin.update r)) s).
Proof.
  intros Hr Hc. unfold ClusterHostState.update.
  unfold_ops. rewrite Hc. unfold_ops. rewrite Hr. unfold_ops.
  destruct (state r) eqn:Est; compare_names; unfold_ops; rewrite ?Hr; unfold_ops;
    rewrite ?Est; compare_names; rewrite ?Hr; reduce_tables;
    rewrite (alter_as_insert _ _ _ _ Hr); reflexivity.
Qed.

(** Solves a lookup at a key that was just written, or that a
    hypothesis gives. *)
Ltac lookup_known :=
  rewrite ?lookup_alter_eq, ?lookup_insert_eq;
  repeat match goal with
         | H : ?m !! ?i = Some _ |- context [?m !! ?i] => rewrite H
         end;
  cbn [fmap option_fmap option_map];
  reflexivity.

(** Turns each [alter] at a present key into the [insert] of the new
    row, and merges successive inserts. *)
Ltac as_inserts :=
  reduce_tables;
  repeat (erewrite alter_as_insert by lookup_known);
  rewrite ?lookup_insert_eq, ?insert_insert_eq.

(** Reduces the projections and setters of rows. *)
Ltac reduce_rows :=
  cbn [fmap option_fmap option_map
       state percentage message severity
       set_state set_percentage set_message set_severity
       cluster_state.base cluster_state.total_hosts
       cluster_state.installing_hosts cluster_state.completed_hosts
       cluster_state.failed_hosts cluster_state.intsalling_hosts
       cluster_state.set_base cluster_state.set_total_hosts
       cluster_state.set_installing_hosts cluster_state.set_completed_hosts
       cluster_state.set_failed_hosts cluster_state.set_intsalling_hosts].

(** Runs a method on a store as far as the known rows allow. *)
Ltac run_steps :=
  repeat progress (unfold_ops; as_inserts; reduce_rows; compare_names).

Lemma ClusterState_update_runs (i : Z) (s : Store)
    (r : cluster_state.row) (c : cluster.row) :
  cluster_state_tbl s !! i = Some r ->
  cluster_tbl s !! i = Some c ->
  state (cluster_state.base r) <> INSTALLING ->
  ClusterState.update i s =
  (Returned tt,
   with_cluster_state_tbl
     (insert i (ClusterState_idle (length (cluster.clusterhosts c)) r)) s).
Proof.
  intros Hr Hc Hst. unfold ClusterState.update, ClusterState_idle, StateMixin.state_in.
  destruct r as [[st p m sv] t ins cmp fl ty]. cbn [cluster_state.base state] in Hst.
  unfold_ops. rewrite Hc. unfold_ops. rewrite Hc.
  destruct st; try congruence; run_steps; reflexivity.
Qed.

(** ** [ClusterState.update] in state [INSTALLING] *)

Lemma never_returns_bind_l {A B} (m : M A) (k : A -> M B) :
  never_returns m -> never_returns (bind m k).
Proof.
  intros Hm s. destruct (Hm s) as (e & s' & Hs).
  exists e, s'. unfold bind. rewrite Hs. reflexivity.
Qed.

Lemma never_returns_bind_r {A B} (m : M A) (k : A -> M B) :
  (forall a, never_returns (k a)) -> never_returns (bind m k).
Proof.
  intros Hk s. unfold bind. destruct (m s) as [[a|e] s'].
  - apply Hk.
  - exists e, s'. reflexivity.
Qed.

Lemma format_message_raises (a b c d : string) :
  py_format "toal %s, installing %s, complted: %s, error $s" [a; b; c; d]
  = Raised TypeError.
Proof. reflexivity. Qed.

Lemma aggregate_never_returns (self cl : Z) (chs : list Z) :
  never_returns (ClusterState.aggregate self cl chs).
Proof.
  unfold ClusterState.aggregate.
  do 7 (apply never_returns_bind_r; intros ?).
  apply never_returns_bind_l. intros s.
  rewrite format_message_raises. exists TypeError, s. reflexivity.
Qed.

Lemma ClusterState_update_installing (i : Z) (s : Store) (r : cluster_state.row) :
  cluster_state_tbl s !! i = Some r ->
  state (cluster_state.base r) = INSTALLING ->
  exists e s', ClusterState.update i s = (Raised e, s').
Proof.
  intros Hr Hst. unfold ClusterState.update.
  destruct r as [[st p m sv] t ins cmp fl ty]. cbn [cluster_state.base state] in Hst.
  subst st. unfold_ops.
  destruct (cluster_tbl s !! i) as [c|] eqn:Hc; [|eauto].
  unfold_ops. rewrite Hc. run_steps.
  match goal with
  | |- context [ClusterState.aggregate ?a ?b ?l ?s0] =>
      destruct (aggregate_never_returns a b l s0) as (e & s' & Hrun);
      rewrite Hrun
  end.
  eauto.
Qed.

(** ** Every state class, outside the aggregation *)

Lemma ClusterState_idle_base (n : nat) (r : cluster_state.row) :
  cluster_state.base (ClusterState_idle n r) = StateMixin.update (cluster_state.base r).
Proof. reflexivity. Qed.

Lemma call_update_runs (depth : nat) (o : StateRef) (s : Store) (r : StateRow) :
  state_row o s = Some r ->
  owner_present o s ->
  ~ aggregating o r ->
  exists s',
    call_update (S depth) o s = (Returned tt, s') /\
    state_row o s' = Some (StateMixin.update r).
Proof.
  intros Hr Hown Hagg. destruct o as [i|i|i]; cbn [call_update state_row] in *.
  - destruct Hown as [h Hh].
    rewrite (HostState_update_runs _ i s r h Hr Hh).
    eexists. split; [reflexivity|].
    unfold HostState_effect. reduce_tables. apply lookup_insert_eq.
  - destruct Hown as [c Hc].
    rewrite (ClusterHostState_update_runs _ i s r c Hr Hc).
    eexists. split; [reflexivity|]. reduce_tables. apply lookup_insert_eq.
  - destruct Hown as [c Hc].
    destruct (cluster_state_tbl s !! i) as [r0|] eqn:Hr0; [|discriminate Hr].
    cbn in Hr. injection Hr as <-.
    rewrite (ClusterState_update_runs i s r0 c Hr0 Hc Hagg).
    eexists. split; [reflexivity|]. reduce_tables.
    rewrite lookup_insert_eq. cbn [fmap option_fmap option_map].
    rewrite ClusterState_idle_base. reflexivity.
Qed.

(** ** The invariants of a state record *)

(** C1, as amended.  For a host state, a membership state, or a cluster
    state that is not [INSTALLING], [update()] returns, and on the row it
    leaves: [state == SUCCESSFUL] implies [percentage == 1.0];
    [state] in [UNINITIALIZED], [INITIALIZED] implies [percentage == 0.0],
    [severity == INFO] and [message == ''];  and
    [0.0 <= percentage <= 1.0] holds after the call if it held before
    the call. *)
Theorem update_establishes_invariants
    (depth : nat) (o : StateRef) (s : Store) (r : StateRow) :
  state_row o s = Some r ->
  owner_present o s ->
  ~ aggregating o r ->
  exists s' r',
    call_update (S depth) o s = (Returned tt, s') /\
    state_row o s' = Some r' /\
    (state r' = SUCCESSFUL -> percentage r' = 1%float) /\
    (state r' = UNINITIALIZED \/ state r' = INITIALIZED ->
     percentage r' = 0%float /\ severity r' = Severity.INFO /\ message r' = "") /\
    (in_range (percentage r) -> in_range (percentage r')).
Proof.
  intros Hr Hown Hagg.
  destruct (call_update_runs depth o s r Hr Hown Hagg) as (s' & Hrun & Hr').
  exists s', (StateMixin.update r).
  split; [exact Hrun|]. split; [exact Hr'|].
  split; [apply StateMixin_update_successful|].
  split; [apply StateMixin_update_reset|apply StateMixin_update_range].
Qed.

Lemma update_establishes_invariants_witness :
  exists s' r',
    call_update 1 (HostStateRef 1) (one_host false false (a_row INSTALLING 1)) =
      (Returned tt, s') /\
    state_row (HostStateRef 1) s' = Some r' /\
    (state r' = SUCCESSFUL -> percentage r' = 1%float) /\
    (state r' = UNINITIALIZED \/ state r' = INITIALIZED ->
     percentage r' = 0%float /\ severity r' = Severity.INFO /\ message r' = "") /\
    (in_range (percentage (a_row INSTALLING 1)) -> in_range (percentage r')).
Proof.
  apply (update_establishes_invariants 0 (HostStateRef 1)
           (one_host false false (a_row INSTALLING 1)) (a_row INSTALLING 1)).
  - reflexivity.
  - cbn. eexists. reflexivity.
  - cbn. tauto.
Defined.

(** C1, as stated, fails: [update()] does not bring a percentage into
    [0.0 .. 1.0].  The state of host 1 is [ERROR] with percentage [2.0];
    [update()] returns and leaves the row as it was. *)
Lemma update_keeps_percentage_above_one :
  outcome (call_update recursion_limit (HostStateRef 1))
    (one_host false false (a_row ERROR 2)) = Returned tt /\
  state_row (HostStateRef 1)
    (store_after (call_update recursion_limit (HostStateRef 1))
       (one_host false false (a_row ERROR 2))) = Some (a_row ERROR 2) /\
  ~ in_range (percentage (a_row ERROR 2)).
Proof.
  split; [vm_compute; reflexivity|].
  split; [vm_compute; reflexivity|].
  intros [_ H]. vm_compute in H. discriminate H.
Qed.

(** ** The transition out of [INSTALLING] *)

(** C7.  On a state record whose state is [INSTALLING], [update()] sets
    the state to [ERROR] when the severity is [ERROR]; otherwise, when
    [percentage >= 1.0], it sets the state to [SUCCESSFUL] and the
    percentage to [1.0]; otherwise it changes nothing.  No other column
    changes. *)
Theorem update_of_installing (r : StateRow) :
  state r = INSTALLING ->
  (severity r = Severity.ERROR ->
   StateMixin.update r = mkStateRow ERROR (percentage r) (message r) (severity r)) /\
  (severity r <> Severity.ERROR -> (1 <=? percentage r)%float = true ->
   StateMixin.update r = mkStateRow SUCCESSFUL 1%float (message r) (severity r)) /\
  (severity r <> Severity.ERROR -> (1 <=? percentage r)%float = false ->
   StateMixin.update r = r).
Proof.
  destruct r as [st p m sv]. cbn [state severity percentage message].
  intros ->. unfold StateMixin.update, StateMixin.state_in, StateMixin.state_is.
  repeat split.
  - intros ->. reflexivity.
  - intros Hsv Hp. destruct sv; [| |congruence];
      repeat progress (reduce_rows; compare_names); rewrite Hp; reflexivity.
  - intros Hsv Hp. destruct sv; [| |congruence];
      repeat progress (reduce_rows; compare_names); rewrite Hp; reflexivity.
Qed.

Lemma update_of_installing_witness :
  (severity (mkStateRow INSTALLING 1.5 "done" Severity.WARNING) = Severity.ERROR ->
   StateMixin.update (mkStateRow INSTALLING 1.5 "done" Severity.WARNING) =
   mkStateRow ERROR 1.5 "done" Severity.WARNING) /\
  (severity (mkStateRow INSTALLING 1.5 "done" Severity.WARNING) <> Severity.ERROR ->
   (1 <=? 1.5)%float = true ->
   StateMixin.update (mkStateRow INSTALLING 1.5 "done" Severity.WARNING) =
   mkStateRow SUCCESSFUL 1 "done" Severity.WARNING) /\
  (severity (mkStateRow INSTALLING 1.5 "done" Severity.WARNING) <> Severity.ERROR ->
   (1 <=? 1.5)%float = false ->
   StateMixin.update (mkStateRow INSTALLING 1.5 "done" Severity.WARNING) =
   mkStateRow INSTALLING 1.5 "done" Severity.WARNING).
Proof.
  apply (update_of_installing (mkStateRow INSTALLING 1.5 "done" Severity.WARNING)).
  reflexivity.
Defined.

(** ** The reinstall flag of a host *)

(** C10.  When [HostState.update] runs on a host state whose state is
    [INSTALLING], it returns and the [reinstall_os] flag of the host is
    false afterwards. *)
Theorem installing_clears_reinstall_os
    (depth : nat) (i : Z) (s : Store) (r : StateRow) (h : host.row) :
  host_state_tbl s !! i = Some r ->
  host_tbl s !! i = Some h ->
  state r = INSTALLING ->
  outcome (call_update (S depth) (HostStateRef i)) s = Returned tt /\
  host.reinstall_os <$>
    host_tbl (store_after (call_update (S depth) (HostStateRef i)) s) !! i = Some false.
Proof.
  intros Hr Hh Hst. unfold outcome, store_after. cbn [call_update].
  rewrite (HostState_update_runs _ i s r h Hr Hh). cbn [fst snd].
  split; [reflexivity|].
  unfold HostState_effect. rewrite decide_True by exact Hst.
  reduce_tables. rewrite lookup_insert_eq. reflexivity.
Qed.

Lemma installing_clears_reinstall_os_witness :
  outcome (call_update 1 (HostStateRef 1))
    (one_host true true (a_row INSTALLING 0.25)) = Returned tt /\
  host.reinstall_os <$>
    host_tbl (store_after (call_update 1 (HostStateRef 1))
                (one_host true true (a_row INSTALLING 0.25))) !! 1 = Some false.
Proof.
  apply (installing_clears_reinstall_os 0 1
           (one_host true true (a_row INSTALLING 0.25))
           (a_row INSTALLING 0.25) (a_host true true [])); reflexivity.
Defined.

(** ** Configuration writes *)

(** The two write modes on a nested blob: a patch merges the inner
    mappings, a put replaces the value of the key. *)
Example patch_merges_inner_mappings :
  merge_dict [("a", JDict [("x", JInt 1)])] [("a", JDict [("y", JInt 2)])]
  = [("a", JDict [("x", JInt 1); ("y", JInt 2)])].
Proof. reflexivity. Qed.

Example put_replaces_top_level_key :
  dict_update [("a", JDict [("x", JInt 1)])] [("a", JDict [("y", JInt 2)])]
  = [("a", JDict [("y", JInt 2)])].
Proof. reflexivity. Qed.

(** C8.  A configuration write, patch or put, on the blob of a host, of
    a membership or of a cluster whose owner is in the store returns,
    and the [config_validated] flag of the owner is false afterwards. *)
Theorem write_clears_config_validated
    (w : ConfigWrite) (value : dict) (s : Store) (e : EntityRef) :
  blob_owner w s = Some e ->
  outcome (write w value) s = Returned tt /\
  config_validated e (store_after (write w value) s) = Some false.
Proof.
  unfold outcome, store_after.
  destruct w as [h|h|c|c|c|c|c|c|c|c]; cbn [blob_owner write];
    unfold Host.set_patched_os_config, Host.set_put_os_config,
           ClusterHost.set_patched_package_config, ClusterHost.set_put_package_config,
           ClusterHost.set_patched_os_config, ClusterHost.set_put_os_config,
           Cluster.set_patched_os_config, Cluster.set_put_os_config,
           Cluster.set_patched_package_config, Cluster.set_put_package_config;
    intros Hown.
  1,2: destruct (host_tbl s !! h) as [row|] eqn:Hrow; [|discriminate Hown];
       injection Hown as <-.
  3,4: destruct (clusterhost_tbl s !! c) as [row|] eqn:Hrow; [|discriminate Hown];
       injection Hown as <-.
  5,6: destruct (clusterhost_tbl s !! c) as [row|] eqn:Hrow; [|discriminate Hown];
       destruct (host_tbl s !! clusterhost.host_id row) as [hrow|] eqn:Hhrow;
         [|discriminate Hown];
       injection Hown as <-.
  7,8,9,10: destruct (cluster_tbl s !! c) as [row|] eqn:Hrow; [|discriminate Hown];
       injection Hown as <-.
  all: repeat progress
         (unfold_ops; cbv zeta; rewrite ?Hrow, ?Hhrow;
          unfold Host.set_patched_os_config, Host.set_put_os_config).
  all: as_inserts; cbn [fst snd config_validated]; reduce_tables.
  all: rewrite lookup_insert_eq; split; reflexivity.
Qed.

Lemma write_clears_config_validated_witness :
  outcome (write (ClusterHostPatchOs 11) [("a", JDict [("y", JInt 2)])])
    (host_with_one SUCCESSFUL SUCCESSFUL) = Returned tt /\
  config_validated (HostRef 1)
    (store_after (write (ClusterHostPatchOs 11) [("a", JDict [("y", JInt 2)])])
       (host_with_one SUCCESSFUL SUCCESSFUL)) = Some false.
Proof.
  apply (write_clears_config_validated (ClusterHostPatchOs 11)
           [("a", JDict [("y", JInt 2)])] (host_with_one SUCCESSFUL SUCCESSFUL)
           (HostRef 1)).
  reflexivity.
Defined.

(** ** A cluster without memberships *)

(** In state [INSTALLING], the update of a cluster without memberships
    goes through the aggregation as far as the message: it clears the
    reinstall flag and sets [total_hosts], skips both loops and the
    division, and raises where the message is built.  The percentage is
    not written. *)
Lemma empty_cluster_installing (i : Z) (s : Store)
    (c : cluster.row) (r : cluster_state.row) :
  cluster_tbl s !! i = Some c ->
  cluster.clusterhosts c = [] ->
  cluster_state_tbl s !! i = Some r ->
  state (cluster_state.base r) = INSTALLING ->
  exists e,
    (e = AttributeError \/ e = TypeError) /\
    ClusterState.update i s =
    (Raised e,
     mkStore (host_tbl s) (host_state_tbl s) (clusterhost_tbl s)
             (clusterhost_state_tbl s)
             (<[i := cluster.set_reinstall_distributed_system false c]> (cluster_tbl s))
             (<[i := cluster_state.set_total_hosts 0 r]> (cluster_state_tbl s))).
Proof.
  intros Hc Hnil Hr Hst. unfold ClusterState.update.
  destruct r as [[st p m sv] t ins cmp fl ty]. cbn [cluster_state.base state] in Hst.
  subst st. repeat progress (unfold_ops; rewrite ?Hc, ?Hnil). run_steps.
  unfold ClusterState.aggregate. cbn [for_each length].
  change (Z.of_nat 0) with 0%Z.
  repeat progress (unfold_ops; as_inserts; rewrite ?Hc).
  destruct (negb _);
    repeat progress (run_steps; cbn [Z.eqb negb]);
    destruct ty as [n|];
    repeat progress (run_steps; cbn [Z.eqb negb]; rewrite ?format_message_raises);
    eexists; (split; [|reflexivity]); auto.
Qed.

(** C9, as amended.  For a cluster without memberships,
    [ClusterState.update] never raises [ZeroDivisionError] and leaves
    [total_hosts == 0].  In state [INSTALLING], where the division is,
    the guard skips it and nothing is assigned in its place: the
    percentage is the one the record had.  In the other states the
    percentage is the one [StateMixin.update] gives: [0.0] in
    [UNINITIALIZED] and [INITIALIZED], [1.0] in [SUCCESSFUL], the
    percentage the record had in [ERROR]. *)
Theorem empty_cluster_update
    (depth : nat) (i : Z) (s : Store) (c : cluster.row) (r : cluster_state.row) :
  cluster_tbl s !! i = Some c ->
  cluster.clusterhosts c = [] ->
  cluster_state_tbl s !! i = Some r ->
  outcome (call_update (S depth) (ClusterStateRef i)) s <> Raised ZeroDivisionError /\
  exists r',
    cluster_state_tbl (store_after (call_update (S depth) (ClusterStateRef i)) s) !! i
      = Some r' /\
    cluster_state.total_hosts r' = 0 /\
    percentage (cluster_state.base r') =
      match state (cluster_state.base r) with
      | UNINITIALIZED | INITIALIZED => 0%float
      | SUCCESSFUL => 1%float
      | INSTALLING | ERROR => percentage (cluster_state.base r)
      end.
Proof.
  intros Hc Hnil Hr. unfold outcome, store_after. cbn [call_update].
  destruct (decide (state (cluster_state.base r) = INSTALLING)) as [Hst|Hst].
  - destruct (empty_cluster_installing i s c r Hc Hnil Hr Hst) as (e & He & Hrun).
    rewrite Hrun, Hst. cbn [fst snd cluster_state_tbl].
    split; [destruct He as [->| ->]; discriminate|].
    exists (cluster_state.set_total_hosts 0 r).
    split; [apply lookup_insert_eq|]. split; reflexivity.
  - rewrite (ClusterState_update_runs i s r c Hr Hc Hst), Hnil. cbn [fst snd].
    split; [discriminate|]. exists (ClusterState_idle 0 r).
    reduce_tables. split; [apply lookup_insert_eq|].
    destruct r as [[st p m sv] t ins cmp fl ty].
    cbn [cluster_state.base state] in Hst |- *.
    unfold ClusterState_idle, StateMixin.state_in.
    destruct st; try congruence; split; reflexivity.
Qed.

Lemma empty_cluster_update_witness :
  outcome (call_update 1 (ClusterStateRef 7)) (empty_cluster INSTALLING 0.5)
    <> Raised ZeroDivisionError /\
  exists r',
    cluster_state_tbl
      (store_after (call_update 1 (ClusterStateRef 7)) (empty_cluster INSTALLING 0.5)) !! 7
      = Some r' /\
    cluster_state.total_hosts r' = 0 /\
    percentage (cluster_state.base r') = 0.5%float.
Proof.
  apply (empty_cluster_update 0 7 (empty_cluster INSTALLING 0.5)
           (cluster.mk true (Some 1) [] [] true [])
           (cluster_state.mk (a_row INSTALLING 0.5) 0 0 0 0 None)); reflexivity.
Defined.

(** C9, as stated, fails: the percentage of a cluster without
    memberships is not always [0.0] after [update()].  Cluster 7 has no
    membership and is in state [INSTALLING] with percentage [0.5]: the
    guard [if self.total_hosts:] skips the division, nothing assigns
    [0.0], and [update()] leaves the percentage [0.5]. *)
Lemma empty_cluster_keeps_percentage :
  outcome (call_update recursion_limit (ClusterStateRef 7))
    (empty_cluster INSTALLING 0.5) <> Raised ZeroDivisionError /\
  (fun r => percentage (cluster_state.base r)) <$>
    cluster_state_tbl
      (store_after (call_update recursion_limit (ClusterStateRef 7))
         (empty_cluster INSTALLING 0.5)) !! 7 = Some 0.5%float /\
  (0.5 =? 0)%float = false.
Proof.
  split; [vm_compute; discriminate|]. split; vm_compute; reflexivity.
Qed.

(** ** The cascades *)

(** [Host.update] leaves every host state as it is: the test
    [self.state in ['SUCCESSFUL', 'ERROR']] compares the state object
    with strings. *)
Lemma Host_update_keeps_host_states (depth : nat) (i : Z) (s : Store) :
  host_state_tbl (store_after (Host.update depth i) s) = host_state_tbl s.
Proof.
  unfold store_after, Host.update. unfold_ops.
  destruct (host_tbl s !! i) as [h|] eqn:Hh; [|reflexivity].
  cbn beta iota.
  change [PyStr "SUCCESSFUL"; PyStr "ERROR"] with (map PyStr ["SUCCESSFUL"; "ERROR"]).
  destruct (host.reinstall_os h); cbn beta iota;
    rewrite ?py_in_state_obj_strs, ?Hh;
    destruct (host.os h); reflexivity.
Qed.

(** [HostState.update] leaves every membership state as it is. *)
Lemma HostState_update_keeps_memberships
    (depth : nat) (i : Z) (s : Store) (r : StateRow) (h : host.row) :
  host_state_tbl s !! i = Some r ->
  host_tbl s !! i = Some h ->
  outcome (call_update (S depth) (HostStateRef i)) s = Returned tt /\
  clusterhost_state_tbl (store_after (call_update (S depth) (HostStateRef i)) s)
  = clusterhost_state_tbl s.
Proof.
  intros Hr Hh. unfold outcome, store_after. cbn [call_update].
  rewrite (HostState_update_runs _ i s r h Hr Hh).
  unfold HostState_effect. destruct (decide _); split; reflexivity.
Qed.

(** [ClusterHostState.update] leaves every host state as it is. *)
Lemma ClusterHostState_update_keeps_host_states
    (depth : nat) (i : Z) (s : Store) (r : StateRow) (c : clusterhost.row) :
  clusterhost_state_tbl s !! i = Some r ->
  clusterhost_tbl s !! i = Some c ->
  outcome (call_update (S depth) (ClusterHostStateRef i)) s = Returned tt /\
  host_state_tbl (store_after (call_update (S depth) (ClusterHostStateRef i)) s)
  = host_state_tbl s.
Proof.
  intros Hr Hc. unfold outcome, store_after. cbn [call_update].
  rewrite (ClusterHostState_update_runs _ i s r c Hr Hc). split; reflexivity.
Qed.

(** C3, on the code.  Host 1 has [reinstall_os] set and its state is
    [SUCCESSFUL]: [Host.update] returns and the state is still
    [SUCCESSFUL], with [config_validated] false as well as true. *)
Theorem host_update_keeps_successful :
  (outcome (Host.update recursion_limit 1)
     (one_host true false (a_row SUCCESSFUL 1)) = Returned tt /\
   host_state_tbl
     (store_after (Host.update recursion_limit 1)
        (one_host true false (a_row SUCCESSFUL 1))) !! 1
   = Some (a_row SUCCESSFUL 1)) /\
  (outcome (Host.update recursion_limit 1)
     (one_host true true (a_row SUCCESSFUL 1)) = Returned tt /\
   host_state_tbl
     (store_after (Host.update recursion_limit 1)
        (one_host true true (a_row SUCCESSFUL 1))) !! 1
   = Some (a_row SUCCESSFUL 1)).
Proof. repeat split; vm_compute; reflexivity. Qed.

(** C4, on the code.  The state of host 1 is [UNINITIALIZED] and its
    memberships 11, 12 and 13 are [SUCCESSFUL], [ERROR] and
    [INSTALLING]: [HostState.update] returns and the three memberships
    are in the states they had. *)
Theorem host_reset_keeps_memberships :
  outcome (call_update recursion_limit (HostStateRef 1))
    (host_with_three UNINITIALIZED SUCCESSFUL ERROR INSTALLING) = Returned tt /\
  map (fun k =>
         state <$>
           clusterhost_state_tbl
             (store_after (call_update recursion_limit (HostStateRef 1))
                (host_with_three UNINITIALIZED SUCCESSFUL ERROR INSTALLING)) !! k)
      [11; 12; 13]
  = [Some SUCCESSFUL; Some ERROR; Some INSTALLING].
Proof. split; vm_compute; reflexivity. Qed.

(** C6, on the code.  Membership 11 of host 1 is [INSTALLING] while the
    host is [UNINITIALIZED] or [INITIALIZED], or it is [INITIALIZED]
    while the host is [UNINITIALIZED]: [ClusterHostState.update]
    returns and the state of the host is the one it had. *)
Theorem membership_update_keeps_host_state :
  (outcome (call_update recursion_limit (ClusterHostStateRef 11))
     (host_with_one UNINITIALIZED INSTALLING) = Returned tt /\
   state <$>
     host_state_tbl
       (store_after (call_update recursion_limit (ClusterHostStateRef 11))
          (host_with_one UNINITIALIZED INSTALLING)) !! 1
   = Some UNINITIALIZED) /\
  (outcome (call_update recursion_limit (ClusterHostStateRef 11))
     (host_with_one INITIALIZED INSTALLING) = Returned tt /\
   state <$>
     host_state_tbl
       (store_after (call_update recursion_limit (ClusterHostStateRef 11))
          (host_with_one INITIALIZED INSTALLING)) !! 1
   = Some INITIALIZED) /\
  (outcome (call_update recursion_limit (ClusterHostStateRef 11))
     (host_with_one UNINITIALIZED INITIALIZED) = Returned tt /\
   state <$>
     host_state_tbl
       (store_after (call_update recursion_limit (ClusterHostStateRef 11))
          (host_with_one UNINITIALIZED INITIALIZED)) !! 1
   = Some UNINITIALIZED).
Proof. repeat split; vm_compute; reflexivity. Qed.

(** ** The aggregation *)

(** C2, on the code.  Cluster 7 is [INSTALLING] and its four
    memberships are [SUCCESSFUL], [SUCCESSFUL], [ERROR], [INSTALLING]:
    [ClusterState.update] raises [AttributeError] at the fourth, and
    leaves [total_hosts = 4], [completed_hosts = 2], [failed_hosts = 1],
    [installing_hosts = 0], the percentage [0.0] and the severity
    [INFO]. *)
Theorem aggregation_of_four_raises :
  outcome (call_update recursion_limit (ClusterStateRef 7)) cluster_of_four
  = Raised AttributeError /\
  cluster_state_tbl
    (store_after (call_update recursion_limit (ClusterStateRef 7)) cluster_of_four) !! 7
  = Some (cluster_state.mk (mkStateRow INSTALLING 0 "" Severity.INFO) 4 0 2 1 None).
Proof. split; vm_compute; reflexivity. Qed.

(** C5, on the code.  Cluster 7 is [INSTALLING] and its one membership
    is [ERROR]: a first [ClusterState.update] raises and leaves
    [failed_hosts = 1]; a second one on the store so reached raises and
    leaves [failed_hosts = 2]. *)
Theorem aggregation_twice_counts_twice :
  outcome (call_update recursion_limit (ClusterStateRef 7)) cluster_of_one_failed
  = Raised AttributeError /\
  cluster_state.failed_hosts <$>
    cluster_state_tbl
      (store_after (call_update recursion_limit (ClusterStateRef 7))
         cluster_of_one_failed) !! 7
  = Some 1 /\
  outcome (call_update recursion_limit (ClusterStateRef 7))
    (store_after (call_update recursion_limit (ClusterStateRef 7))
       cluster_of_one_failed)
  = Raised AttributeError /\
  cluster_state.failed_hosts <$>
    cluster_state_tbl
      (store_after (call_update recursion_limit (ClusterStateRef 7))
         (store_after (call_update recursion_limit (ClusterStateRef 7))
            cluster_of_one_failed)) !! 7
  = Some 2.
Proof. repeat split; vm_compute; reflexivity. Qed.

(** ** Calling [update()] twice *)

Lemma StateMixin_update_keeps_state (r : StateRow) :
  state r <> INSTALLING -> state (StateMixin.update r) = state r.
Proof. by_columns r; intros H; try reflexivity; congruence. Qed.

Lemma StateMixin_update_keeps_idle (r : StateRow) :
  StateMixin.state_in (StateMixin.update r) ["UNINITIALIZED"; "INITIALIZED"]
  = StateMixin.state_in r ["UNINITIALIZED"; "INITIALIZED"].
Proof. by_columns r; reflexivity. Qed.

Lemma ClusterState_idle_idempotent (n : nat) (r : cluster_state.row) :
  ClusterState_idle n (ClusterState_idle n r) = ClusterState_idle n r.
Proof.
  unfold ClusterState_idle. cbv zeta.
  cbn [cluster_state.base cluster_state.installing_hosts
       cluster_state.completed_hosts cluster_state.failed_hosts
       cluster_state.intsalling_hosts].
  rewrite StateMixin_update_keeps_idle, StateMixin_update_idempotent.
  destruct (StateMixin.state_in _ _); reflexivity.
Qed.

(** Outside the aggregation, a second [update()] returns and leaves the
    store that the first one left. *)
Lemma call_update_idempotent (depth : nat) (o : StateRef) (s : Store) (r : StateRow) :
  state_row o s = Some r ->
  owner_present o s ->
  ~ aggregating o r ->
  call_update (S depth) o (store_after (call_update (S depth) o) s)
  = (Returned tt, store_after (call_update (S depth) o) s).
Proof.
  intros Hr Hown Hagg. unfold store_after.
  destruct o as [i|i|i]; cbn [call_update state_row owner_present aggregating] in *.
  - destruct Hown as [h Hh].
    rewrite (HostState_update_runs _ i s r h Hr Hh). cbn [snd].
    unfold HostState_effect.
    destruct (decide (state r = INSTALLING)) as [Hst|Hst].
    + erewrite HostState_update_runs;
        [|reduce_tables; apply lookup_insert_eq|reduce_tables; apply lookup_insert_eq].
      unfold HostState_effect.
      destruct (decide _); reduce_tables;
        rewrite StateMixin_update_idempotent, !insert_insert_eq; reflexivity.
    + erewrite HostState_update_runs;
        [|reduce_tables; apply lookup_insert_eq|reduce_tables; exact Hh].
      unfold HostState_effect.
      rewrite decide_False
        by (rewrite StateMixin_update_keeps_state; assumption).
      reduce_tables. rewrite StateMixin_update_idempotent, insert_insert_eq. reflexivity.
  - destruct Hown as [c Hc].
    rewrite (ClusterHostState_update_runs _ i s r c Hr Hc). cbn [snd].
    erewrite ClusterHostState_update_runs;
      [|reduce_tables; apply lookup_insert_eq|reduce_tables; exact Hc].
    reduce_tables. rewrite StateMixin_update_idempotent, insert_insert_eq. reflexivity.
  - destruct Hown as [c Hc].
    destruct (cluster_state_tbl s !! i) as [r0|] eqn:Hr0; [|discriminate Hr].
    cbn [fmap option_fmap option_map] in Hr. injection Hr as <-.
    rewrite (ClusterState_update_runs i s r0 c Hr0 Hc Hagg). cbn [snd].
    erewrite ClusterState_update_runs;
      [|reduce_tables; apply lookup_insert_eq|reduce_tables; exact Hc|].
    + reduce_tables. rewrite ClusterState_idle_idempotent, insert_insert_eq. reflexivity.
    + rewrite ClusterState_idle_base, StateMixin_update_keeps_state; assumption.
Qed.

(** * Further properties *)

(** ** State records *)

(** X1.  [StateMixin.update] changes the state of a record only when it
    is [INSTALLING], and then only to [ERROR] or [SUCCESSFUL]; a record
    in state [ERROR] is left as it is, whatever its percentage, message
    and severity. *)
Theorem update_moves_only_installing :
  (forall r : StateRow,
     state (StateMixin.update r) = state r \/
     (state r = INSTALLING /\
      (state (StateMixin.update r) = ERROR \/
       state (StateMixin.update r) = SUCCESSFUL))) /\
  (forall (p : float) (m : string) (sv : Severity.t),
     StateMixin.update (mkStateRow ERROR p m sv) = mkStateRow ERROR p m sv).
Proof.
  split.
  - intros r. by_columns r; auto.
  - intros p m sv. destruct sv; reflexivity.
Qed.

(** X2.  For a host state, a membership state, and a cluster state
    that is not [INSTALLING], a second [update()] right after the first
    returns as well and leaves the store exactly as the first one left
    it. *)
Theorem update_twice_is_update_once
    (depth : nat) (o : StateRef) (s : Store) (r : StateRow) :
  state_row o s = Some r ->
  owner_present o s ->
  ~ aggregating o r ->
  outcome (call_update (S depth) o) s = Returned tt /\
  outcome (call_update (S depth) o) (store_after (call_update (S depth) o) s)
    = Returned tt /\
  store_after (call_update (S depth) o) (store_after (call_update (S depth) o) s)
    = store_after (call_update (S depth) o) s.
Proof.
  intros Hr Hown Hagg.
  destruct (call_update_runs depth o s r Hr Hown Hagg) as (s' & Hrun & _).
  pose proof (call_update_idempotent depth o s r Hr Hown Hagg) as Hagain.
  unfold outcome, store_after in *. rewrite Hagain, Hrun. auto.
Qed.

Lemma update_twice_is_update_once_witness :
  outcome (call_update 1 (HostStateRef 1))
    (one_host true true (a_row INSTALLING 1)) = Returned tt /\
  outcome (call_update 1 (HostStateRef 1))
    (store_after (call_update 1 (HostStateRef 1))
       (one_host true true (a_row INSTALLING 1))) = Returned tt /\
  store_after (call_update 1 (HostStateRef 1))
    (store_after (call_update 1 (HostStateRef 1))
       (one_host true true (a_row INSTALLING 1)))
    = store_after (call_update 1 (HostStateRef 1))
        (one_host true true (a_row INSTALLING 1)).
Proof.
  apply (update_twice_is_update_once 0 (HostStateRef 1)
           (one_host true true (a_row INSTALLING 1)) (a_row INSTALLING 1)).
  - reflexivity.
  - cbn. eexists. reflexivity.
  - cbn. tauto.
Defined.

(** X3.  [HostState.update] on a host state whose host is in the store
    returns, and changes nothing but the row of that host state and the
    row of that host: the memberships, their states, the clusters and
    every other host are as they were. *)
Theorem HostState_update_frame
    (depth : nat) (i : Z) (s : Store) (r : StateRow) (h : host.row) :
  host_state_tbl s !! i = Some r ->
  host_tbl s !! i = Some h ->
  outcome (call_update (S depth) (HostStateRef i)) s = Returned tt /\
  clusterhost_tbl (store_after (call_update (S depth) (HostStateRef i)) s)
    = clusterhost_tbl s /\
  clusterhost_state_tbl (store_after (call_update (S depth) (HostStateRef i)) s)
    = clusterhost_state_tbl s /\
  cluster_tbl (store_after (call_update (S depth) (HostStateRef i)) s)
    = cluster_tbl s /\
  cluster_state_tbl (store_after (call_update (S depth) (HostStateRef i)) s)
    = cluster_state_tbl s /\
  (forall j, j <> i ->
     host_tbl (store_after (call_update (S depth) (HostStateRef i)) s) !! j
       = host_tbl s !! j /\
     host_state_tbl (store_after (call_update (S depth) (HostStateRef i)) s) !! j
       = host_state_tbl s !! j).
Proof.
  intros Hr Hh. unfold outcome, store_after. cbn [call_update].
  rewrite (HostState_update_runs _ i s r h Hr Hh). cbn [fst snd].
  unfold HostState_effect.
  destruct (decide _); reduce_tables; repeat split; try reflexivity;
    rewrite ?lookup_insert_ne by congruence; reflexivity.
Qed.

Lemma HostState_update_frame_witness :
  outcome (call_update 1 (HostStateRef 1))
    (host_with_three INSTALLING SUCCESSFUL ERROR INSTALLING) = Returned tt /\
  clusterhost_tbl (store_after (call_update 1 (HostStateRef 1))
                     (host_with_three INSTALLING SUCCESSFUL ERROR INSTALLING))
    = clusterhost_tbl (host_with_three INSTALLING SUCCESSFUL ERROR INSTALLING) /\
  clusterhost_state_tbl (store_after (call_update 1 (HostStateRef 1))
                           (host_with_three INSTALLING SUCCESSFUL ERROR INSTALLING))
    = clusterhost_state_tbl (host_with_three INSTALLING SUCCESSFUL ERROR INSTALLING) /\
  cluster_tbl (store_after (call_update 1 (HostStateRef 1))
                 (host_with_three INSTALLING SUCCESSFUL ERROR INSTALLING))
    = cluster_tbl (host_with_three INSTALLING SUCCESSFUL ERROR INSTALLING) /\
  cluster_state_tbl (store_after (call_update 1 (HostStateRef 1))
                       (host_with_three INSTALLING SUCCESSFUL ERROR INSTALLING))
    = cluster_state_tbl (host_with_three INSTALLING SUCCESSFUL ERROR INSTALLING) /\
  (forall j, j <> 1 ->
     host_tbl (store_after (call_update 1 (HostStateRef 1))
                 (host_with_three INSTALLING SUCCESSFUL ERROR INSTALLING)) !! j
       = host_tbl (host_with_three INSTALLING SUCCESSFUL ERROR INSTALLING) !! j /\
     host_state_tbl (store_after (call_update 1 (HostStateRef 1))
                       (host_with_three INSTALLING SUCCESSFUL ERROR INSTALLING)) !! j
       = host_state_tbl (host_with_three INSTALLING SUCCESSFUL ERROR INSTALLING) !! j).
Proof.
  apply (HostState_update_frame 0 1
           (host_with_three INSTALLING SUCCESSFUL ERROR INSTALLING)
           (a_row INSTALLING 0) (a_host false false [11; 12; 13])); reflexivity.
Defined.

(** X4.  [ClusterHostState.update] on a membership state whose
    membership is in the store returns, applies [StateMixin.update] to
    that row, and changes nothing else in the store: no host state, in
    particular. *)
Theorem ClusterHostState_update_frame
    (depth : nat) (i : Z) (s : Store) (r : StateRow) (c : clusterhost.row) :
  clusterhost_state_tbl s !! i = Some r ->
  clusterhost_tbl s !! i = Some c ->
  call_update (S depth) (ClusterHostStateRef i) s =
  (Returned tt,
   mkStore (host_tbl s) (host_state_tbl s) (clusterhost_tbl s)
           (<[i := StateMixin.update r]> (clusterhost_state_tbl s))
           (cluster_tbl s) (cluster_state_tbl s)).
Proof.
  intros Hr Hc. cbn [call_update].
  rewrite (ClusterHostState_update_runs _ i s r c Hr Hc). reflexivity.
Qed.

Lemma ClusterHostState_update_frame_witness :
  call_update 1 (ClusterHostStateRef 11) (host_with_one UNINITIALIZED INSTALLING) =
  (Returned tt,
   mkStore (host_tbl (host_with_one UNINITIALIZED INSTALLING))
           (host_state_tbl (host_with_one UNINITIALIZED INSTALLING))
           (clusterhost_tbl (host_with_one UNINITIALIZED INSTALLING))
           (<[11 := StateMixin.update (a_row INSTALLING 0)]>
              (clusterhost_state_tbl (host_with_one UNINITIALIZED INSTALLING)))
           (cluster_tbl (host_with_one UNINITIALIZED INSTALLING))
           (cluster_state_tbl (host_with_one UNINITIALIZED INSTALLING))).
Proof.
  apply (ClusterHostState_update_frame 0 11 (host_with_one UNINITIALIZED INSTALLING)
           (a_row INSTALLING 0) (a_membership 7 1)); reflexivity.
Defined.

(** X5.  [ClusterState.update] on a cluster state in state
    [INSTALLING] never returns: whatever the memberships and the
    counters are, it raises an exception. *)
Theorem aggregation_never_returns
    (depth : nat) (i : Z) (s : Store) (r : cluster_state.row) :
  cluster_state_tbl s !! i = Some r ->
  state (cluster_state.base r) = INSTALLING ->
  exists e, outcome (call_update (S depth) (ClusterStateRef i)) s = Raised e.
Proof.
  intros Hr Hst. unfold outcome. cbn [call_update].
  destruct (ClusterState_update_installing i s r Hr Hst) as (e & s' & Hrun).
  exists e. rewrite Hrun. reflexivity.
Qed.

Lemma aggregation_never_returns_witness :
  exists e,
    outcome (call_update 1 (ClusterStateRef 7)) (empty_cluster INSTALLING 0) = Raised e.
Proof.
  apply (aggregation_never_returns 0 7 (empty_cluster INSTALLING 0)
           (cluster_state.mk (a_row INSTALLING 0) 0 0 0 0 None)); reflexivity.
Defined.

(** X6.  Outside [INSTALLING], [ClusterState.update] returns with
    [total_hosts] the number of memberships; it sets the three other
    counters to zero in [UNINITIALIZED] and [INITIALIZED] and leaves
    them as they were in [SUCCESSFUL] and [ERROR]. *)
Theorem ClusterState_update_counters
    (depth : nat) (i : Z) (s : Store) (r : cluster_state.row) (c : cluster.row) :
  cluster_state_tbl s !! i = Some r ->
  cluster_tbl s !! i = Some c ->
  state (cluster_state.base r) <> INSTALLING ->
  outcome (call_update (S depth) (ClusterStateRef i)) s = Returned tt /\
  exists r',
    cluster_state_tbl (store_after (call_update (S depth) (ClusterStateRef i)) s) !! i
      = Some r' /\
    cluster_state.total_hosts r' = Z.of_nat (length (cluster.clusterhosts c)) /\
    (cluster_state.installing_hosts r', cluster_state.completed_hosts r',
     cluster_state.failed_hosts r') =
    match state (cluster_state.base r) with
    | UNINITIALIZED | INITIALIZED => (0, 0, 0)
    | _ => (cluster_state.installing_hosts r, cluster_state.completed_hosts r,
            cluster_state.failed_hosts r)
    end.
Proof.
  intros Hr Hc Hst. unfold outcome, store_after. cbn [call_update].
  rewrite (ClusterState_update_runs i s r c Hr Hc Hst). cbn [fst snd].
  split; [reflexivity|].
  exists (ClusterState_idle (length (cluster.clusterhosts c)) r).
  reduce_tables. split; [apply lookup_insert_eq|]. split; [reflexivity|].
  destruct r as [[st p m sv] t ins cmp fl ty]. cbn [cluster_state.base state] in *.
  destruct st; try congruence; reflexivity.
Qed.

Lemma ClusterState_update_counters_witness :
  outcome (call_update 1 (ClusterStateRef 7)) cluster_with_old_counters = Returned tt /\
  exists r',
    cluster_state_tbl
      (store_after (call_update 1 (ClusterStateRef 7)) cluster_with_old_counters) !! 7
      = Some r' /\
    cluster_state.total_hosts r' = 2 /\
    (cluster_state.installing_hosts r', cluster_state.completed_hosts r',
     cluster_state.failed_hosts r') = (0, 0, 0).
Proof.
  apply (ClusterState_update_counters 0 7 cluster_with_old_counters
           (cluster_state.mk (a_row INITIALIZED 0.75) 5 1 3 1 None)
           (cluster.mk true (Some 1) [] [] true [11; 12])); try reflexivity.
  discriminate.
Defined.

(** ** [Host.update] *)

(** X7.  [Host.update] on a host that is in the store returns and does
    one thing: it sets [os_name] to the name of the related operating
    system, or to [None] when there is none.  The state, the flags and
    every other row are as they were, also when [reinstall_os] is set
    and the state is [SUCCESSFUL] or [ERROR]. *)
Theorem Host_update_sets_os_name
    (depth : nat) (i : Z) (s : Store) (h : host.row) :
  host_tbl s !! i = Some h ->
  Host.update depth i s =
  (Returned tt,
   mkStore (<[i := host.set_os_name (host.os h) h]> (host_tbl s))
           (host_state_tbl s) (clusterhost_tbl s) (clusterhost_state_tbl s)
           (cluster_tbl s) (cluster_state_tbl s)).
Proof.
  intros Hh. unfold Host.update. unfold_ops. rewrite Hh. cbn beta iota.
  change [PyStr "SUCCESSFUL"; PyStr "ERROR"] with (map PyStr ["SUCCESSFUL"; "ERROR"]).
  destruct (host.reinstall_os h); cbn beta iota;
    rewrite ?py_in_state_obj_strs, ?Hh;
    destruct (host.os h); reduce_tables;
    rewrite (alter_as_insert _ _ _ _ Hh); reflexivity.
Qed.

Lemma Host_update_sets_os_name_witness :
  Host.update recursion_limit 1 (one_host true false (a_row ERROR 0.5)) =
  (Returned tt,
   mkStore (<[1 := host.set_os_name (host.os (a_host true false []))
                     (a_host true false [])]>
              (host_tbl (one_host true false (a_row ERROR 0.5))))
           (host_state_tbl (one_host true false (a_row ERROR 0.5)))
           (clusterhost_tbl (one_host true false (a_row ERROR 0.5)))
           (clusterhost_state_tbl (one_host true false (a_row ERROR 0.5)))
           (cluster_tbl (one_host true false (a_row ERROR 0.5)))
           (cluster_state_tbl (one_host true false (a_row ERROR 0.5)))).
Proof.
  apply (Host_update_sets_os_name recursion_limit 1
           (one_host true false (a_row ERROR 0.5)) (a_host true false [])).
  reflexivity.
Defined.

(** ** Configuration writes, continued *)

Lemma dict_get_set_eq (k : string) (v : json) (d : dict) :
  dict_get k (dict_set k v d) = Some v.
Proof.
  induction d as [|[k' v'] d IH]; cbn.
  - rewrite String.eqb_refl. reflexivity.
  - destruct (String.eqb k k') eqn:E; cbn; rewrite E; [reflexivity|exact IH].
Qed.

Lemma dict_get_set_ne (k k' : string) (v : json) (d : dict) :
  k <> k' -> dict_get k (dict_set k' v d) = dict_get k d.
Proof.
  intros Hne. induction d as [|[k0 v0] d IH]; cbn.
  - apply String.eqb_neq in Hne. rewrite Hne. reflexivity.
  - destruct (String.eqb k' k0) eqn:E; cbn.
    + apply String.eqb_eq in E. subst k0.
      apply String.eqb_neq in Hne. rewrite Hne. reflexivity.
    + rewrite IH. reflexivity.
Qed.

Lemma dict_get_update_absent (k : string) (value d : dict) :
  dict_get k value = None ->
  dict_get k (dict_update d value) = dict_get k d.
Proof.
  unfold dict_update. revert d.
  induction value as [|[k' v'] value IH]; intros d Hk; cbn in *; [reflexivity|].
  destruct (String.eqb k k') eqn:E; [discriminate Hk|].
  rewrite (IH _ Hk). apply dict_get_set_ne.
  apply String.eqb_neq. exact E.
Qed.

Lemma dict_get_update_present (k : string) (x : json) (value d : dict) :
  NoDup (map fst value) ->
  dict_get k value = Some x ->
  dict_get k (dict_update d value) = Some x.
Proof.
  unfold dict_update. revert d.
  induction value as [|[k' v'] value IH]; intros d Hnd Hk; cbn in *; [discriminate Hk|].
  apply NoDup_cons in Hnd as [Hnotin Hnd].
  destruct (String.eqb k k') eqn:E.
  - injection Hk as <-. apply String.eqb_eq in E. subst k'.
    assert (Habsent : dict_get k value = None).
    { clear -Hnotin. induction value as [|[k0 v0] value IH]; cbn; [reflexivity|].
      destruct (String.eqb k k0) eqn:E.
      - apply String.eqb_eq in E. subst k0. exfalso. apply Hnotin. cbn. left.
      - apply IH. intros Hin. apply Hnotin. cbn. right. exact Hin. }
    pose proof (dict_get_update_absent k value (dict_set k v' d) Habsent) as Hkeep.
    unfold dict_update in Hkeep. rewrite Hkeep. apply dict_get_set_eq.
  - apply IH; assumption.
Qed.

(** X8.  A put on a configuration blob whose owner is in the store
    leaves, for every key, the entry that [value] has for it, and the
    entry the blob had when [value] has none.  [value] is a mapping: no
    key occurs twice in it. *)
Theorem put_overwrites_top_level_keys
    (w : ConfigWrite) (value d : dict) (s : Store) :
  is_put w = true ->
  blob w s = Some d ->
  NoDup (map fst value) ->
  exists d',
    blob w (store_after (write w value) s) = Some d' /\
    forall k,
      dict_get k d' =
      match dict_get k value with
      | Some x => Some x
      | None => dict_get k d
      end.
Proof.
  intros Hput Hblob Hnd. exists (dict_update d value). split.
  - unfold store_after.
    destruct w as [h|h|c|c|c|c|c|c|c|c]; try discriminate Hput;
      cbn [blob write] in *;
      unfold Host.set_put_os_config, ClusterHost.set_put_package_config,
             ClusterHost.set_put_os_config, Cluster.set_put_os_config,
             Cluster.set_put_package_config.
    1: destruct (host_tbl s !! h) as [row|] eqn:Hrow; [|discriminate Hblob].
    2: destruct (clusterhost_tbl s !! c) as [row|] eqn:Hrow; [|discriminate Hblob].
    3: destruct (clusterhost_tbl s !! c) as [row|] eqn:Hrow; [|discriminate Hblob];
       cbn [mbind option_bind] in *;
       destruct (host_tbl s !! clusterhost.host_id row) as [hrow|] eqn:Hhrow;
         [|discriminate Hblob].
    4,5: destruct (cluster_tbl s !! c) as [row|] eqn:Hrow; [|discriminate Hblob].
    all: cbn [fmap option_fmap option_map] in Hblob; injection Hblob as <-.
    all: repeat progress
           (unfold_ops; cbv zeta; rewrite ?Hrow, ?Hhrow;
            unfold Host.set_put_os_config).
    all: as_inserts; cbn [fst snd]; reduce_tables.
    all: rewrite ?Hrow; cbn [mbind option_bind]; rewrite lookup_insert_eq; reflexivity.
  - intros k. destruct (dict_get k value) as [x|] eqn:Hk.
    + apply dict_get_update_present; assumption.
    + apply dict_get_update_absent; assumption.
Qed.

Lemma put_overwrites_top_level_keys_witness :
  exists d',
    blob (ClusterPutPackage 7)
      (store_after (write (ClusterPutPackage 7) [("roles", JList [JStr "compute"])])
         (empty_cluster INITIALIZED 0)) = Some d' /\
    forall k,
      dict_get k d' =
      match dict_get k [("roles", JList [JStr "compute"])] with
      | Some x => Some x
      | None => dict_get k []
      end.
Proof.
  apply (put_overwrites_top_level_keys (ClusterPutPackage 7)
           [("roles", JList [JStr "compute"])] [] (empty_cluster INITIALIZED 0)).
  - reflexivity.
  - reflexivity.
  - apply NoDup_cons. split; [apply not_elem_of_nil|apply NoDup_nil_2].
Defined.

(** X9.  A configuration write never touches a state record or a
    reinstall flag: the three state tables, [reinstall_os] of every
    host and [reinstall_distributed_system] of every cluster are as
    they were, whether the write returns or raises. *)
Theorem write_keeps_states_and_reinstall_flags
    (w : ConfigWrite) (value : dict) (s : Store) :
  host_state_tbl (store_after (write w value) s) = host_state_tbl s /\
  clusterhost_state_tbl (store_after (write w value) s) = clusterhost_state_tbl s /\
  cluster_state_tbl (store_after (write w value) s) = cluster_state_tbl s /\
  (forall j,
     host.reinstall_os <$> host_tbl (store_after (write w value) s) !! j
     = host.reinstall_os <$> host_tbl s !! j) /\
  (forall j,
     cluster.reinstall_distributed_system
       <$> cluster_tbl (store_after (write w value) s) !! j
     = cluster.reinstall_distributed_system <$> cluster_tbl s !! j).
Proof.
  unfold store_after.
  destruct w as [h|h|c|c|c|c|c|c|c|c]; cbn [write];
    unfold Host.set_patched_os_config, Host.set_put_os_config,
           ClusterHost.set_patched_package_config, ClusterHost.set_put_package_config,
           ClusterHost.set_patched_os_config, ClusterHost.set_put_os_config,
           Cluster.set_patched_os_config, Cluster.set_put_os_config,
           Cluster.set_patched_package_config, Cluster.set_put_package_config.
  all: repeat progress
         (unfold_ops; cbv zeta;
          unfold Host.set_patched_os_config, Host.set_put_os_config;
          repeat match goal with
                 | |- context [host_tbl ?s0 !! ?k] =>
                     is_var s0; destruct (host_tbl s0 !! k) eqn:?
                 | |- context [clusterhost_tbl ?s0 !! ?k] =>
                     is_var s0; destruct (clusterhost_tbl s0 !! k) eqn:?
                 | |- context [cluster_tbl ?s0 !! ?k] =>
                     is_var s0; destruct (cluster_tbl s0 !! k) eqn:?
                 end;
          cbn beta iota; cbn [fmap option_fmap option_map]).
  all: cbn [fst snd]; reduce_tables; repeat split; try reflexivity; try intros j.
  all: rewrite ?lookup_alter; repeat case_decide; subst;
       repeat match goal with
              | H : ?m !! ?k = _ |- context [?m !! ?k] => rewrite H
              end;
       reflexivity.
Qed.

(** ** [ClusterHost.update] *)

(** X10.  [ClusterHost.update] never changes the store: on every store,
    for every membership, the store afterwards is the store before,
    also when the host has [reinstall_os] set and the membership is
    [SUCCESSFUL] or [ERROR]. *)
Theorem ClusterHost_update_changes_nothing (depth : nat) (i : Z) (s : Store) :
  store_after (ClusterHost_update depth i) s = s.
Proof.
  unfold store_after, ClusterHost_update. repeat progress unfold_ops.
  destruct (clusterhost_tbl s !! i) as [row|]; [|reflexivity]. cbn beta iota.
  destruct (host_tbl s !! clusterhost.host_id row) as [h|] eqn:Hh;
    cbn [fmap option_fmap option_map]; [|reflexivity].
  cbn beta iota. rewrite Hh. cbn beta iota.
  change [PyStr "SUCCESSFUL"; PyStr "ERROR"] with (map PyStr ["SUCCESSFUL"; "ERROR"]).
  destruct (host.reinstall_os h); cbn beta iota;
    rewrite ?py_in_state_obj_strs; reflexivity.
Qed.

(** ** Adapters *)

Section Inheritance.

Variable adapters : gmap Z adapter.row.

Lemma adapter_package_installer_inherited (depth : nat) (a : adapter.row) :
  Adapter.adapter_package_installer adapters depth a
  = inherited adapters adapter.package_installer depth a.
Proof.
  revert a. induction depth as [|depth IH]; intros a; cbn; [reflexivity|].
  destruct (adapter.package_installer a); [reflexivity|].
  destruct (adapter_parent adapters a); [apply IH|reflexivity].
Qed.

Lemma adapter_os_installer_inherited (depth : nat) (a : adapter.row) :
  Adapter.adapter_os_installer adapters depth a
  = inherited adapters adapter.os_installer depth a.
Proof.
  revert a. induction depth as [|depth IH]; intros a; cbn; [reflexivity|].
  destruct (adapter.os_installer a); [reflexivity|].
  destruct (adapter_parent adapters a); [apply IH|reflexivity].
Qed.

Lemma adapter_distributed_system_inherited (depth : nat) (a : adapter.row) :
  Adapter.adapter_distributed_system adapters depth a
  = inherited adapters adapter.distributed_system depth a.
Proof.
  revert a. induction depth as [|depth IH]; intros a; cbn; [reflexivity|].
  destruct (adapter.distributed_system a); [reflexivity|].
  destruct (adapter_parent adapters a); [apply IH|reflexivity].
Qed.

Lemma adapter_supported_oses_inherited (depth : nat) (a : adapter.row) :
  Adapter.adapter_supported_oses adapters depth a
  = or_empty (inherited adapters (fun a => nonempty (adapter.supported_oses a)) depth a).
Proof.
  revert a. induction depth as [|depth IH]; intros a; cbn; [reflexivity|].
  destruct (adapter.supported_oses a); cbn; [|reflexivity].
  destruct (adapter_parent adapters a); [apply IH|reflexivity].
Qed.

Lemma adapter_roles_inherited (depth : nat) (a : adapter.row) :
  Adapter.adapter_roles adapters depth a
  = or_empty (inherited adapters (fun a => nonempty (adapter.roles a)) depth a).
Proof.
  revert a. induction depth as [|depth IH]; intros a; cbn; [reflexivity|].
  destruct (adapter.roles a); cbn; [|reflexivity].
  destruct (adapter_parent adapters a); [apply IH|reflexivity].
Qed.

Section Generic.

Context {X : Type} (own : adapter.row -> option X).

Lemma inherited_resolves (depth : nat) (a : adapter.row) (r : option X) :
  inherited adapters own depth a = Returned r -> resolves adapters own a r.
Proof.
  revert a. induction depth as [|depth IH]; intros a; cbn; [discriminate|].
  destruct (own a) as [x|] eqn:Hown.
  - intros [= <-]. apply resolves_own. exact Hown.
  - destruct (adapter_parent adapters a) as [p|] eqn:Hp.
    + intros Hp'. eapply resolves_parent; eauto.
    + intros [= <-]. apply resolves_root; assumption.
Qed.

Lemma resolves_inherited (a : adapter.row) (r : option X) :
  resolves adapters own a r ->
  exists depth, forall depth', (depth <= depth')%nat ->
    inherited adapters own depth' a = Returned r.
Proof.
  induction 1 as [a x Hown|a Hown Hp|a p r Hown Hp _ [depth IH]].
  - exists 1%nat. intros [|depth'] Hle; [lia|]. cbn. rewrite Hown. reflexivity.
  - exists 1%nat. intros [|depth'] Hle; [lia|]. cbn. rewrite Hown, Hp. reflexivity.
  - exists (S depth). intros [|depth'] Hle; [lia|]. cbn. rewrite Hown, Hp.
    apply IH. lia.
Qed.

Lemma inherited_only_raises_RuntimeError (depth : nat) (a : adapter.row) (e : Exn) :
  inherited adapters own depth a = Raised e -> e = RuntimeError.
Proof.
  revert a. induction depth as [|depth IH]; intros a; cbn.
  - intros [= <-]. reflexivity.
  - destruct (own a); [discriminate|].
    destruct (adapter_parent adapters a); [apply IH|discriminate].
Qed.

Lemma inherited_stable (depth depth' : nat) (a : adapter.row) (r : option X) :
  inherited adapters own depth a = Returned r ->
  (depth <= depth')%nat ->
  inherited adapters own depth' a = Returned r.
Proof.
  revert depth' a. induction depth as [|depth IH]; intros depth' a; cbn; [discriminate|].
  intros Hrun Hle. destruct depth' as [|depth']; [lia|]. cbn.
  destruct (own a); [exact Hrun|].
  destruct (adapter_parent adapters a); [|exact Hrun].
  apply IH; [exact Hrun|lia].
Qed.

Lemma inherited_loop (loop : adapter.row -> Prop) :
  (forall a, loop a ->
     own a = None /\ exists p, adapter_parent adapters a = Some p /\ loop p) ->
  forall depth a, loop a -> inherited adapters own depth a = Raised RuntimeError.
Proof.
  intros Hloop depth. induction depth as [|depth IH]; intros a Ha; cbn; [reflexivity|].
  destruct (Hloop a Ha) as (Hown & p & Hp & Hlp).
  rewrite Hown, Hp. apply IH. exact Hlp.
Qed.

End Generic.

(** X11.  [adapter_distributed_system], [adapter_os_installer] and
    [adapter_package_installer] return, for some recursion depth, the
    value [r] exactly when [r] is the value of the nearest adapter on
    the parent chain that has one ([None] when the chain ends without
    one); a larger depth gives the same result. *)
Theorem inherited_value_is_nearest (a : adapter.row) :
  ((forall r,
      (exists depth, Adapter.adapter_distributed_system adapters depth a = Returned r)
      <-> resolves adapters adapter.distributed_system a r) /\
   (forall depth depth' r, (depth <= depth')%nat ->
      Adapter.adapter_distributed_system adapters depth a = Returned r ->
      Adapter.adapter_distributed_system adapters depth' a = Returned r)) /\
  ((forall r,
      (exists depth, Adapter.adapter_os_installer adapters depth a = Returned r)
      <-> resolves adapters adapter.os_installer a r) /\
   (forall depth depth' r, (depth <= depth')%nat ->
      Adapter.adapter_os_installer adapters depth a = Returned r ->
      Adapter.adapter_os_installer adapters depth' a = Returned r)) /\
  ((forall r,
      (exists depth, Adapter.adapter_package_installer adapters depth a = Returned r)
      <-> resolves adapters adapter.package_installer a r) /\
   (forall depth depth' r, (depth <= depth')%nat ->
      Adapter.adapter_package_installer adapters depth a = Returned r ->
      Adapter.adapter_package_installer adapters depth' a = Returned r)).
Proof.
  repeat split.
  - intros [depth Hrun]. rewrite adapter_distributed_system_inherited in Hrun.
    eapply inherited_resolves; eauto.
  - intros Hres. destruct (resolves_inherited _ a r Hres) as [depth Hrun].
    exists depth. rewrite adapter_distributed_system_inherited. apply Hrun. lia.
  - intros depth depth' r Hle. rewrite !adapter_distributed_system_inherited.
    intros Hrun. eapply inherited_stable; eauto.
  - intros [depth Hrun]. rewrite adapter_os_installer_inherited in Hrun.
    eapply inherited_resolves; eauto.
  - intros Hres. destruct (resolves_inherited _ a r Hres) as [depth Hrun].
    exists depth. rewrite adapter_os_installer_inherited. apply Hrun. lia.
  - intros depth depth' r Hle. rewrite !adapter_os_installer_inherited.
    intros Hrun. eapply inherited_stable; eauto.
  - intros [depth Hrun]. rewrite adapter_package_installer_inherited in Hrun.
    eapply inherited_resolves; eauto.
  - intros Hres. destruct (resolves_inherited _ a r Hres) as [depth Hrun].
    exists depth. rewrite adapter_package_installer_inherited. apply Hrun. lia.
  - intros depth depth' r Hle. rewrite !adapter_package_installer_inherited.
    intros Hrun. eapply inherited_stable; eauto.
Qed.

(** The list properties: the result is the list of the nearest adapter
    that has a non-empty one. *)
Lemma inherited_list_resolves {X : Type} (own : adapter.row -> list X)
    (a : adapter.row) (l : list X) :
  (exists depth,
     or_empty (inherited adapters (fun a => nonempty (own a)) depth a) = Returned l) <->
  resolves adapters (fun a => nonempty (own a)) a (nonempty l).
Proof.
  split.
  - intros [depth Hrun].
    destruct (inherited _ _ depth a) as [[l'|]|e] eqn:Hin; cbn in Hrun;
      try discriminate; injection Hrun as <-; apply inherited_resolves in Hin.
    + assert (Hl : nonempty l' = Some l'); [|rewrite Hl; exact Hin].
      clear -Hin. remember (Some l') as r eqn:Hr.
      induction Hin as [a x Hown|a Hown Hp|a p r Hown Hp Hin IH];
        [|discriminate|auto].
      injection Hr as ->. destruct (own a); [discriminate|].
      cbn in Hown. injection Hown as <-. reflexivity.
    + exact Hin.
  - intros Hres. apply resolves_inherited in Hres as [depth Hrun].
    exists depth. rewrite (Hrun depth) by lia. destruct l; reflexivity.
Qed.

(** X12.  [adapter_roles] and [adapter_supported_oses] return, for some
    recursion depth, the list [l] exactly when [l] is the non-empty list
    of the nearest adapter on the parent chain that has one, or is empty
    and the chain ends without one. *)
Theorem inherited_list_is_nearest (a : adapter.row) :
  (forall l,
     (exists depth, Adapter.adapter_roles adapters depth a = Returned l) <->
     resolves adapters (fun a => nonempty (adapter.roles a)) a (nonempty l)) /\
  (forall l,
     (exists depth, Adapter.adapter_supported_oses adapters depth a = Returned l) <->
     resolves adapters (fun a => nonempty (adapter.supported_oses a)) a (nonempty l)).
Proof.
  split; intros l.
  - rewrite <- (inherited_list_resolves adapter.roles).
    split; intros [depth Hrun]; exists depth;
      [rewrite <- adapter_roles_inherited|rewrite adapter_roles_inherited]; exact Hrun.
  - rewrite <- (inherited_list_resolves adapter.supported_oses).
    split; intros [depth Hrun]; exists depth;
      [rewrite <- adapter_supported_oses_inherited
      |rewrite adapter_supported_oses_inherited]; exact Hrun.
Qed.

(** X13.  On a parent chain that loops without reaching an adapter that
    has a distributed system, [adapter_distributed_system] never
    returns: at every recursion depth it ends in [RuntimeError].  No
    other exception is ever raised by it. *)
Theorem distributed_system_of_a_loop (loop : adapter.row -> Prop) :
  (forall a, loop a ->
     adapter.distributed_system a = None /\
     exists p, adapter_parent adapters a = Some p /\ loop p) ->
  (forall depth a, loop a ->
     Adapter.adapter_distributed_system adapters depth a = Raised RuntimeError) /\
  (forall depth a e,
     Adapter.adapter_distributed_system adapters depth a = Raised e ->
     e = RuntimeError).
Proof.
  intros Hloop. split.
  - intros depth a Ha. rewrite adapter_distributed_system_inherited.
    eapply inherited_loop; eauto.
  - intros depth a e. rewrite adapter_distributed_system_inherited.
    apply inherited_only_raises_RuntimeError.
Qed.

End Inheritance.

Lemma distributed_system_of_a_loop_witness :
  (forall depth a,
     a = adapter.mk "openstack" (Some 1) None None None [] [] ->
     Adapter.adapter_distributed_system
       {[ 1 := adapter.mk "openstack" (Some 1) None None None [] [] ]} depth a
     = Raised RuntimeError) /\
  (forall depth a e,
     Adapter.adapter_distributed_system
       {[ 1 := adapter.mk "openstack" (Some 1) None None None [] [] ]} depth a
     = Raised e ->
     e = RuntimeError).
Proof.
  apply (distributed_system_of_a_loop
           {[ 1 := adapter.mk "openstack" (Some 1) None None None [] [] ]}
           (fun a => a = adapter.mk "openstack" (Some 1) None None None [] [])).
  intros a ->. split; [reflexivity|].
  exists (adapter.mk "openstack" (Some 1) None None None [] []).
  split; reflexivity.
Defined.

(** ** [Cluster.update] *)

(** Unfolds the operations of [W]. *)
Ltac unfold_world :=
  unfold wwhen, cluster_adapter, cluster_info_row, modify_cluster_info;
  unfold wderef, wlift, in_store;
  unfold wbind, wret, wraise;
  cbn [store cluster_info_tbl adapter_tbl].

Lemma Cluster_update_start (depth : nat) (i : Z) (w : World)
    (c : cluster.row) (info : cluster_info.row) :
  cluster_tbl (store w) !! i = Some c ->
  cluster_info_tbl w !! i = Some info ->
  Cluster_update depth i w =
  (let w1 := os_synced i c info w in
   match adapter_of w info with
   | Some a =>
       let info1 :=
         cluster_info.set_adapter_name (Some (adapter.name a))
           (cluster_info.set_os_name (cluster_info.os info) info) in
       let c1 := match cluster_info.os info with
                 | Some _ => c
                 | None => cluster.set_os_config [] c
                 end in
       match Adapter.adapter_distributed_system (adapter_tbl w) depth a with
       | Returned system =>
           let w2 :=
             mkWorld
               (with_cluster_tbl
                  (insert i (cluster_set_distributed_system
                               (distributed_system.id <$> system) c1))
                  (store w))
               (<[i := info1]> (cluster_info_tbl w)) (adapter_tbl w) in
           match system with
           | Some d =>
               (Returned tt,
                mkWorld (store w2)
                  (<[i := cluster_info.set_distributed_system_name
                            (Some (distributed_system.name d)) info1]>
                     (cluster_info_tbl w))
                  (adapter_tbl w))
           | None => (Raised AttributeError, w2)
           end
       | Raised e =>
           (Raised e,
            mkWorld (store w1) (<[i := info1]> (cluster_info_tbl w)) (adapter_tbl w))
       end
   | None =>
       (Returned tt,
        mkWorld
          (with_cluster_tbl
             (insert i (cluster_set_distributed_system None
                          match cluster_info.os info with
                          | Some _ => c
                          | None => cluster.set_os_config [] c
                          end))
             (store w))
          (<[i := cluster_info.set_distributed_system_name None
                    (cluster_info.set_adapter_name None
                       (cluster_info.set_os_name (cluster_info.os info) info))]>
             (cluster_info_tbl w))
          (adapter_tbl w))
   end).
Proof.
  intros Hc Hinfo. unfold Cluster_update, os_synced, adapter_of.
  destruct w as [s infos adapters]. cbn [store cluster_info_tbl adapter_tbl] in *.
  cbv zeta. repeat progress (unfold_world; unfold_ops). rewrite Hc. cbn beta iota.
  change [PyStr "SUCCESSFUL"; PyStr "ERROR"] with (map PyStr ["SUCCESSFUL"; "ERROR"]).
  destruct (cluster.reinstall_distributed_system c);
    destruct (cluster_info.os info) as [os|] eqn:Hos;
    (destruct (cluster_info.adapter info) as [k|] eqn:Hk;
       [destruct (adapters !! k) as [a|] eqn:Ha;
          [destruct (Adapter.adapter_distributed_system adapters depth a)
             as [[d|]|e] eqn:Hsystem|]|]);
    repeat progress
      (cbn beta iota;
       cbn [cluster_info_tbl adapter_tbl store fmap option_fmap option_map
            cluster_info.adapter cluster_info.os cluster_info.set_os_name];
       rewrite ?py_in_state_obj_strs, ?lookup_alter_eq, ?Hinfo, ?Hos, ?Hk, ?Ha,
               ?Hsystem);
    reduce_tables;
    repeat (erewrite alter_as_insert by lookup_known);
    rewrite ?insert_insert_eq, ?(insert_id _ _ _ Hc);
    first [reflexivity | destruct s; reflexivity].
Qed.

(** The update of a cluster that is missing from one of the tables ends
    in [AttributeError] and leaves the world as it is. *)
Lemma Cluster_update_missing (depth : nat) (i : Z) (w : World) :
  cluster_tbl (store w) !! i = None \/ cluster_info_tbl w !! i = None ->
  Cluster_update depth i w = (Raised AttributeError, w).
Proof.
  intros Hmissing. unfold Cluster_update.
  destruct w as [s infos adapters]. cbn [store cluster_info_tbl adapter_tbl] in *.
  repeat progress (unfold_world; unfold_ops).
  destruct (cluster_tbl s !! i) as [c|] eqn:Hc; cbn beta iota;
    [|destruct s; reflexivity].
  destruct Hmissing as [?|Hinfo]; [discriminate|].
  change [PyStr "SUCCESSFUL"; PyStr "ERROR"] with (map PyStr ["SUCCESSFUL"; "ERROR"]).
  destruct (cluster.reinstall_distributed_system c);
    repeat progress
      (cbn beta iota; cbn [cluster_info_tbl adapter_tbl store];
       rewrite ?py_in_state_obj_strs, ?Hinfo);
    destruct s; reflexivity.
Qed.

(** X14.  [Cluster.update] changes no state record, no host and no
    membership, whatever the cluster's flags and state: the guard compares
    the state object with the strings ['SUCCESSFUL'] and ['ERROR'], so a
    cluster flagged for reinstall keeps its state. *)
Theorem Cluster_update_keeps_states (depth : nat) (i : Z) (w : World) :
  besides_clusters (world_after (Cluster_update depth i) w) = besides_clusters w.
Proof.
  unfold world_after.
  destruct (cluster_tbl (store w) !! i) as [c|] eqn:Hc;
    [destruct (cluster_info_tbl w !! i) as [info|] eqn:Hinfo|].
  - rewrite (Cluster_update_start depth i w c info Hc Hinfo). cbv zeta.
    destruct (adapter_of w info) as [a|];
      [destruct (Adapter.adapter_distributed_system (adapter_tbl w) depth a)
         as [[d|]|e]|];
      reflexivity.
  - rewrite Cluster_update_missing by (right; exact Hinfo). reflexivity.
  - rewrite Cluster_update_missing by (left; exact Hc). reflexivity.
Qed.

(** X15.  After [Cluster.update], whether it returns or raises, the
    column [os_name] is the name of the cluster's operating system; a
    cluster without one has [os_name] [None] and its [os_config] emptied,
    a cluster with one keeps its [os_config]. *)
Theorem Cluster_update_os_columns (depth : nat) (i : Z) (w : World)
    (c : cluster.row) (info : cluster_info.row) :
  cluster_tbl (store w) !! i = Some c ->
  cluster_info_tbl w !! i = Some info ->
  os_columns i (world_after (Cluster_update depth i) w) =
  Some (cluster_info.os info,
        match cluster_info.os info with
        | Some _ => cluster.os_config c
        | None => []
        end).
Proof.
  intros Hc Hinfo. unfold world_after, os_columns.
  rewrite (Cluster_update_start depth i w c info Hc Hinfo). cbv zeta.
  destruct (adapter_of w info) as [a|];
    [destruct (Adapter.adapter_distributed_system (adapter_tbl w) depth a)
       as [[d|]|e]|];
    cbn [snd store cluster_info_tbl os_synced with_cluster_tbl cluster_tbl];
    rewrite !lookup_insert_eq;
    destruct (cluster_info.os info); reflexivity.
Qed.

Lemma Cluster_update_os_columns_witness :
  os_columns 7 (world_after (Cluster_update 10 7) (a_world None (Some 2) [])) =
  Some (None, []).
Proof.
  apply (Cluster_update_os_columns 10 7 (a_world None (Some 2) [])
           (cluster.mk true (Some 9) [("language", JStr "EN")] [] true [11])
           (cluster_info.mk None (Some "stale") (Some 2) (Some "stale") (Some "stale")));
    reflexivity.
Defined.

(** X16.  [Cluster.update] of a cluster whose adapter has a distributed
    system, its own or an inherited one, returns and leaves the adapter's
    name, that distributed system and its name in the cluster. *)
Theorem Cluster_update_adapter_columns (depth : nat) (i : Z) (w : World)
    (c : cluster.row) (info : cluster_info.row) (a : adapter.row)
    (d : distributed_system.row) :
  cluster_tbl (store w) !! i = Some c ->
  cluster_info_tbl w !! i = Some info ->
  adapter_of w info = Some a ->
  Adapter.adapter_distributed_system (adapter_tbl w) depth a = Returned (Some d) ->
  world_outcome (Cluster_update depth i) w = Returned tt /\
  adapter_columns i (world_after (Cluster_update depth i) w) =
  Some (Some (adapter.name a), Some (distributed_system.id d),
        Some (distributed_system.name d)).
Proof.
  intros Hc Hinfo Ha Hd. unfold world_outcome, world_after, adapter_columns.
  rewrite (Cluster_update_start depth i w c info Hc Hinfo). cbv zeta.
  rewrite Ha, Hd.
  cbn [fst snd store cluster_info_tbl with_cluster_tbl cluster_tbl fmap option_fmap
       option_map].
  rewrite !lookup_insert_eq. split; reflexivity.
Qed.

Lemma Cluster_update_adapter_columns_witness :
  world_outcome (Cluster_update 10 7) (a_world (Some "CentOS") (Some 2) []) = Returned tt /\
  adapter_columns 7
    (world_after (Cluster_update 10 7) (a_world (Some "CentOS") (Some 2) [])) =
  Some (Some "openstack_ha", Some 5, Some "openstack").
Proof.
  apply (Cluster_update_adapter_columns 10 7 (a_world (Some "CentOS") (Some 2) [])
           (cluster.mk true (Some 9) [("language", JStr "EN")] [] true [11])
           (cluster_info.mk (Some "CentOS") (Some "stale") (Some 2) (Some "stale")
              (Some "stale"))
           (adapter.mk "openstack_ha" (Some 1) None None None [] [])
           (distributed_system.mk 5 "openstack"));
    reflexivity.
Defined.

(** X17.  [Cluster.update] of a cluster without an adapter returns and
    leaves [None] in [adapter_name], [distributed_system] and
    [distributed_system_name]. *)
Theorem Cluster_update_without_adapter (depth : nat) (i : Z) (w : World)
    (c : cluster.row) (info : cluster_info.row) :
  cluster_tbl (store w) !! i = Some c ->
  cluster_info_tbl w !! i = Some info ->
  adapter_of w info = None ->
  world_outcome (Cluster_update depth i) w = Returned tt /\
  adapter_columns i (world_after (Cluster_update depth i) w) = Some (None, None, None).
Proof.
  intros Hc Hinfo Ha. unfold world_outcome, world_after, adapter_columns.
  rewrite (Cluster_update_start depth i w c info Hc Hinfo). cbv zeta.
  rewrite Ha.
  cbn [fst snd store cluster_info_tbl with_cluster_tbl cluster_tbl].
  rewrite !lookup_insert_eq. split; reflexivity.
Qed.

Lemma Cluster_update_without_adapter_witness :
  world_outcome (Cluster_update 10 7) (a_world (Some "CentOS") None []) = Returned tt /\
  adapter_columns 7 (world_after (Cluster_update 10 7) (a_world (Some "CentOS") None [])) =
  Some (None, None, None).
Proof.
  apply (Cluster_update_without_adapter 10 7 (a_world (Some "CentOS") None [])
           (cluster.mk true (Some 9) [("language", JStr "EN")] [] true [11])
           (cluster_info.mk (Some "CentOS") (Some "stale") None (Some "stale")
              (Some "stale")));
    reflexivity.
Defined.

(** X18.  [Cluster.update] of a cluster whose adapter has no distributed
    system, of its own or inherited, raises [AttributeError]; by then it
    has set [adapter_name] and cleared [distributed_system], and
    [distributed_system_name] is still the old one. *)
Theorem Cluster_update_without_distributed_system (depth : nat) (i : Z) (w : World)
    (c : cluster.row) (info : cluster_info.row) (a : adapter.row) :
  cluster_tbl (store w) !! i = Some c ->
  cluster_info_tbl w !! i = Some info ->
  adapter_of w info = Some a ->
  Adapter.adapter_distributed_system (adapter_tbl w) depth a = Returned None ->
  world_outcome (Cluster_update depth i) w = Raised AttributeError /\
  adapter_columns i (world_after (Cluster_update depth i) w) =
  Some (Some (adapter.name a), None, cluster_info.distributed_system_name info).
Proof.
  intros Hc Hinfo Ha Hd. unfold world_outcome, world_after, adapter_columns.
  rewrite (Cluster_update_start depth i w c info Hc Hinfo). cbv zeta.
  rewrite Ha, Hd.
  cbn [fst snd store cluster_info_tbl with_cluster_tbl cluster_tbl fmap option_fmap
       option_map].
  rewrite !lookup_insert_eq. split; reflexivity.
Qed.

Lemma Cluster_update_without_distributed_system_witness :
  world_outcome (Cluster_update 10 7) (a_world (Some "CentOS") (Some 3) []) =
  Raised AttributeError /\
  adapter_columns 7
    (world_after (Cluster_update 10 7) (a_world (Some "CentOS") (Some 3) [])) =
  Some (Some "os_only", None, Some "stale").
Proof.
  apply (Cluster_update_without_distributed_system 10 7
           (a_world (Some "CentOS") (Some 3) [])
           (cluster.mk true (Some 9) [("language", JStr "EN")] [] true [11])
           (cluster_info.mk (Some "CentOS") (Some "stale") (Some 3) (Some "stale")
              (Some "stale"))
           (adapter.mk "os_only" None None None None [] []));
    reflexivity.
Defined.

(** ** [SwitchMachine.patched_vlans] *)

Section Vlans.

Context {A : Type} `{EqDecision A}.

(** One round of the loop of the setter. *)
Local Abbreviation add_missing :=
  (fun (vlans : list A) (item : A) =>
     if bool_decide (item ∈ vlans) then vlans else (vlans ++ [item])%list).

Lemma set_patched_vlans_loop (vlans value : list A) :
  SwitchMachine.set_patched_vlans vlans value = fold_left add_missing value vlans.
Proof. destruct value; reflexivity. Qed.

Lemma vlans_loop_prefix (value vlans : list A) :
  vlans `prefix_of` fold_left add_missing value vlans.
Proof.
  revert vlans. induction value as [|item value IH]; intros vlans; cbn; [reflexivity|].
  case_bool_decide; [apply IH|].
  etransitivity; [|apply IH]. apply prefix_app_r. reflexivity.
Qed.

Lemma vlans_loop_elem (value vlans : list A) (x : A) :
  x ∈ fold_left add_missing value vlans <-> x ∈ vlans \/ x ∈ value.
Proof.
  revert vlans. induction value as [|item value IH]; intros vlans; cbn.
  - rewrite elem_of_nil. tauto.
  - rewrite IH, elem_of_cons. case_bool_decide as Hin.
    + split; [tauto|]. intros [?|[->|?]]; tauto.
    + rewrite elem_of_app, list_elem_of_singleton. tauto.
Qed.

Lemma vlans_loop_NoDup (value vlans : list A) :
  NoDup vlans -> NoDup (fold_left add_missing value vlans).
Proof.
  revert vlans. induction value as [|item value IH]; intros vlans Hnd; cbn; [exact Hnd|].
  apply IH. case_bool_decide as Hin; [exact Hnd|].
  apply NoDup_app. split; [exact Hnd|]. split.
  - intros x Hx ->%list_elem_of_singleton. exact (Hin Hx).
  - apply NoDup_singleton.
Qed.

Lemma vlans_loop_nothing_missing (value vlans : list A) :
  (forall x, x ∈ value -> x ∈ vlans) -> fold_left add_missing value vlans = vlans.
Proof.
  induction value as [|item value IH]; intros Hall; cbn; [reflexivity|].
  rewrite bool_decide_eq_true_2 by (apply Hall; left).
  apply IH. intros x Hx. apply Hall. right. exact Hx.
Qed.

(** X19.  Setting [patched_vlans] keeps the vlans there are, in their
    places, and adds items of [value] behind them: afterwards the vlans
    are the old ones and those of [value], and no others. *)
Theorem patched_vlans_adds_behind (vlans value : list A) :
  vlans `prefix_of` SwitchMachine.set_patched_vlans vlans value /\
  forall x, x ∈ SwitchMachine.set_patched_vlans vlans value <-> x ∈ vlans \/ x ∈ value.
Proof.
  rewrite set_patched_vlans_loop. split.
  - apply vlans_loop_prefix.
  - intros x. apply vlans_loop_elem.
Qed.

(** X20.  Setting [patched_vlans] adds no vlan twice: vlans without
    duplicates stay without duplicates, also when [value] repeats an
    item. *)
Theorem patched_vlans_keeps_NoDup (vlans value : list A) :
  NoDup vlans -> NoDup (SwitchMachine.set_patched_vlans vlans value).
Proof.
  rewrite set_patched_vlans_loop. apply vlans_loop_NoDup.
Qed.

(** X21.  Setting [patched_vlans] to the same value a second time
    changes nothing. *)
Theorem patched_vlans_twice (vlans value : list A) :
  SwitchMachine.set_patched_vlans (SwitchMachine.set_patched_vlans vlans value) value =
  SwitchMachine.set_patched_vlans vlans value.
Proof.
  rewrite !set_patched_vlans_loop. apply vlans_loop_nothing_missing.
  intros x Hx. apply vlans_loop_elem. right. exact Hx.
Qed.

End Vlans.

Lemma patched_vlans_keeps_NoDup_witness :
  NoDup (SwitchMachine.set_patched_vlans [1; 2]%Z [2; 3; 3; 1; 4]%Z).
Proof.
  apply (patched_vlans_keeps_NoDup [1; 2]%Z [2; 3; 3; 1; 4]%Z).
  apply (bool_decide_eq_true_1 (NoDup [1; 2]%Z)). vm_compute. reflexivity.
Defined.

(** ** [Machine] *)

(** X22.  A key that [value] does not have is gone from the tag after
    [patched_tag] is set, which stores [value] alone, and keeps its entry
    in the location after [patched_location] is set, which stores the
    updated copy. *)
Theorem patched_tag_drops_what_patched_location_keeps
    (self : machine.row) (value : dict) (k : string) :
  dict_get k value = None ->
  dict_get k (machine.tag (Machine.set_patched_tag self value)) = None /\
  dict_get k (machine.location (Machine.set_patched_location self value)) =
  dict_get k (machine.location self).
Proof.
  intros Hk. unfold Machine.set_patched_tag, Machine.set_patched_location.
  cbn [machine.tag machine.location]. split; [exact Hk|].
  apply dict_get_update_absent. exact Hk.
Qed.

Lemma patched_tag_drops_what_patched_location_keeps_witness :
  dict_get "rack"
    (machine.tag
       (Machine.set_patched_tag
          (machine.mk [] [("rack", JStr "r1")] [("rack", JStr "r1")])
          [("row", JStr "7")])) = None /\
  dict_get "rack"
    (machine.location
       (Machine.set_patched_location
          (machine.mk [] [("rack", JStr "r1")] [("rack", JStr "r1")])
          [("row", JStr "7")])) = Some (JStr "r1").
Proof.
  apply (patched_tag_drops_what_patched_location_keeps
           (machine.mk [] [("rack", JStr "r1")] [("rack", JStr "r1")])
           [("row", JStr "7")] "rack").
  reflexivity.
Defined.

(** ** [ClusterHost.roles] *)

(** The mapping the first loop builds holds, for each name, the last
    role of that name. *)
Lemma role_mapping_lookup (roles : list adapter_role.row)
    (m : gmap string adapter_role.row) (n : string) :
  fold_left (fun (m : gmap string adapter_role.row) role =>
               <[adapter_role.name role := role]> m) roles m !! n =
  match role_named roles n with
  | Some r => Some r
  | None => m !! n
  end.
Proof.
  unfold role_named. revert m.
  induction roles as [|r roles IH]; intros m; cbn [fold_left]; [reflexivity|].
  rewrite IH, filter_cons. case_decide as Hname.
  - rewrite last_cons.
    destruct (last (filter (fun r0 => adapter_role.name r0 = n) roles));
      [reflexivity|].
    subst n. apply lookup_insert_eq.
  - destruct (last (filter (fun r0 => adapter_role.name r0 = n) roles));
      [reflexivity|].
    apply lookup_insert_ne. exact Hname.
Qed.

(** The second loop, on names that are strings. *)
Lemma filter_roles_names (m : gmap string adapter_role.row) (names : list string)
    (filtered_roles : list adapter_role.row) :
  filter_roles m (map JStr names) filtered_roles =
  Returned (filtered_roles ++ omap (fun n => m !! n) names)%list.
Proof.
  revert filtered_roles.
  induction names as [|n names IH]; intros filtered_roles; cbn.
  - rewrite app_nil_r. reflexivity.
  - destruct (m !! n) as [r|]; rewrite IH; [|reflexivity].
    rewrite <- app_assoc. reflexivity.
Qed.

(** X23.  For a membership whose [package_config] has a list of names
    under ['roles'], [ClusterHost.roles] returns the adapter's roles of
    these names in the order of the names: a name the adapter has no role
    for is left out, a name given twice gives its role twice, and of two
    roles with one name the later one is taken. *)
Theorem ClusterHost_roles_follow_the_names (i : Z) (w : World)
    (row : clusterhost.row) (names : list string) (c : cluster.row)
    (info : cluster_info.row) (a : adapter.row) :
  clusterhost_tbl (store w) !! i = Some row ->
  dict_get "roles" (clusterhost.package_config row) = Some (JList (map JStr names)) ->
  cluster_tbl (store w) !! clusterhost.cluster_id row = Some c ->
  cluster_info_tbl w !! clusterhost.cluster_id row = Some info ->
  adapter_of w info = Some a ->
  ClusterHost_roles i w =
  (Returned (Some (omap (role_named (adapter.roles a)) names)), w).
Proof.
  intros Hrow Hroles Hc Hinfo Ha. unfold ClusterHost_roles, adapter_of in *.
  destruct w as [s infos adapters]. cbn [store cluster_info_tbl adapter_tbl] in *.
  unfold clusterhost_cluster.
  repeat progress (unfold_world; unfold_ops).
  repeat progress
    (cbn beta iota;
     cbn [cluster_info_tbl adapter_tbl store fmap option_fmap option_map py_iter];
     rewrite ?Hrow, ?Hroles, ?Hc, ?Hinfo, ?Ha).
  rewrite filter_roles_names. cbn [app].
  destruct s. do 3 f_equal. apply list_omap_ext, Forall_Forall2_diag, Forall_forall.
  intros n _. rewrite role_mapping_lookup, lookup_empty.
  destruct (role_named (adapter.roles a) n); reflexivity.
Qed.

Lemma ClusterHost_roles_follow_the_names_witness :
  ClusterHost_roles 11
    (a_world None (Some 1)
       [("roles", JList (map JStr ["compute"; "network"; "controller"; "compute"]))]) =
  (Returned
     (Some [adapter_role.mk 2 "compute"; adapter_role.mk 1 "controller";
            adapter_role.mk 2 "compute"]),
   a_world None (Some 1)
     [("roles", JList (map JStr ["compute"; "network"; "controller"; "compute"]))]).
Proof.
  apply (ClusterHost_roles_follow_the_names 11
           (a_world None (Some 1)
              [("roles", JList (map JStr ["compute"; "network"; "controller"; "compute"]))])
           (clusterhost.mk 7 1
              [("roles", JList (map JStr ["compute"; "network"; "controller"; "compute"]))]
              true)
           ["compute"; "network"; "controller"; "compute"]
           (cluster.mk true (Some 9) [("language", JStr "EN")] [] true [11])
           (cluster_info.mk None (Some "stale") (Some 1) (Some "stale") (Some "stale"))
           (adapter.mk "openstack" None (Some (distributed_system.mk 5 "openstack"))
              None None
              [adapter_role.mk 1 "controller"; adapter_role.mk 2 "compute"] []));
    reflexivity.
Defined.

(** X24.  For a membership of a cluster without an adapter,
    [ClusterHost.roles] is [None] when the [package_config] has no key
    ['roles'], and raises [AttributeError] when it has one, whatever is
    under it. *)
Theorem ClusterHost_roles_without_adapter (i : Z) (w : World)
    (row : clusterhost.row) (c : cluster.row) (info : cluster_info.row) :
  clusterhost_tbl (store w) !! i = Some row ->
  cluster_tbl (store w) !! clusterhost.cluster_id row = Some c ->
  cluster_info_tbl w !! clusterhost.cluster_id row = Some info ->
  adapter_of w info = None ->
  world_outcome (ClusterHost_roles i) w =
  match dict_get "roles" (clusterhost.package_config row) with
  | Some _ => Raised AttributeError
  | None => Returned None
  end.
Proof.
  intros Hrow Hc Hinfo Ha. unfold world_outcome, ClusterHost_roles, adapter_of in *.
  destruct w as [s infos adapters]. cbn [store cluster_info_tbl adapter_tbl] in *.
  unfold clusterhost_cluster.
  repeat progress (unfold_world; unfold_ops).
  rewrite Hrow. cbn beta iota.
  destruct (dict_get "roles" (clusterhost.package_config row)); [|reflexivity].
  repeat progress
    (cbn beta iota;
     cbn [cluster_info_tbl adapter_tbl store fmap option_fmap option_map];
     rewrite ?Hrow, ?Hc, ?Hinfo, ?Ha).
  reflexivity.
Qed.

Lemma ClusterHost_roles_without_adapter_witness :
  world_outcome (ClusterHost_roles 11)
    (a_world None None [("roles", JList [JStr "compute"])]) =
  Raised AttributeError.
Proof.
  apply (ClusterHost_roles_without_adapter 11
           (a_world None None [("roles", JList [JStr "compute"])])
           (clusterhost.mk 7 1 [("roles", JList [JStr "compute"])] true)
           (cluster.mk true (Some 9) [("language", JStr "EN")] [] true [11])
           (cluster_info.mk None (Some "stale") None (Some "stale") (Some "stale")));
    reflexivity.
Defined.

(** ** [Cluster.initialize] *)

(** X25.  [Cluster.initialize] of a cluster with an adapter puts the
    names of the adapter's own roles, in their order, under ['roles'] of
    the cluster's [package_config], keeps the other keys and clears
    [config_validated]. *)
Theorem Cluster_initialize_puts_role_names (i : Z) (w : World)
    (c : cluster.row) (info : cluster_info.row) (a : adapter.row) :
  cluster_tbl (store w) !! i = Some c ->
  cluster_info_tbl w !! i = Some info ->
  adapter_of w info = Some a ->
  world_outcome (Cluster_initialize i) w = Returned tt /\
  exists c',
    cluster_tbl (store (world_after (Cluster_initialize i) w)) !! i = Some c' /\
    dict_get "roles" (cluster.package_config c') =
    Some (JList (map (fun role => JStr (adapter_role.name role)) (adapter.roles a))) /\
    (forall k, k <> "roles" ->
       dict_get k (cluster.package_config c') = dict_get k (cluster.package_config c)) /\
    cluster.config_validated c' = false.
Proof.
  intros Hc Hinfo Ha.
  unfold world_outcome, world_after, Cluster_initialize, adapter_of in *.
  destruct w as [s infos adapters]. cbn [store cluster_info_tbl adapter_tbl] in *.
  unfold Cluster.set_put_package_config.
  repeat progress (unfold_world; unfold_ops).
  repeat progress
    (cbn beta iota zeta; cbn [cluster_info_tbl adapter_tbl store fst snd];
     rewrite ?Hinfo, ?Ha, ?Hc).
  split; [reflexivity|].
  reduce_tables. rewrite !lookup_alter_eq, Hc. cbn [fmap option_fmap option_map].
  eexists. split; [reflexivity|].
  cbn [cluster.package_config cluster.config_validated cluster.set_package_config
       cluster.set_config_validated].
  unfold dict_update. cbn [fold_left fst snd].
  split; [apply dict_get_set_eq|]. split; [|reflexivity].
  intros k Hk. apply dict_get_set_ne. exact Hk.
Qed.

Lemma Cluster_initialize_puts_role_names_witness :
  world_outcome (Cluster_initialize 7) (a_world None (Some 1) []) = Returned tt /\
  exists c',
    cluster_tbl (store (world_after (Cluster_initialize 7) (a_world None (Some 1) []))) !! 7
    = Some c' /\
    dict_get "roles" (cluster.package_config c') =
    Some (JList [JStr "controller"; JStr "compute"]) /\
    (forall k, k <> "roles" -> dict_get k (cluster.package_config c') = dict_get k []) /\
    cluster.config_validated c' = false.
Proof.
  apply (Cluster_initialize_puts_role_names 7 (a_world None (Some 1) [])
           (cluster.mk true (Some 9) [("language", JStr "EN")] [] true [11])
           (cluster_info.mk None (Some "stale") (Some 1) (Some "stale") (Some "stale"))
           (adapter.mk "openstack" None (Some (distributed_system.mk 5 "openstack"))
              None None
              [adapter_role.mk 1 "controller"; adapter_role.mk 2 "compute"] []));
    reflexivity.
Defined.
